(** * Solidity stack-trace encoding and build-result aggregation

    A shallow embedding of two TypeScript modules of the Hardhat v-next
    code base:

    - the stack-trace encoder ([encodeSolidityStackTrace],
      [encodeStackTraceEntry], [sourceReferenceToSolidityCallsite],
      [getMessageFromLastStackTraceEntry], the classes [SolidityError] and
      [SolidityCallSite]);
    - the Solidity build helpers ([throwIfSolidityBuildFailed],
      [getArtifacts], [getTestSuiteIds]).

    JavaScript values are modelled by the types the TypeScript signatures
    give them; [undefined] in an optional position is [None]; exceptions are
    explicit completions; the one piece of process-wide mutable state the
    code touches, [Error.prepareStackTrace], is threaded explicitly. *)

From Stdlib Require Import String Ascii List ZArith NArith Bool Lia.
From Stdlib Require Import DecimalString HexadecimalString.
From Stdlib.Strings Require Import Byte.
Import ListNotations.

Local Open Scope list_scope.
Local Open Scope string_scope.

(* ================================================================== *)
(** * Part I: the embedding *)
(* ================================================================== *)

(** ** JavaScript completions *)

Module Js.

(** The two descriptors of [HardhatError.ERRORS.SOLIDITY] that the build
    helpers raise, with the message arguments they are raised with. *)
Inductive SolidityErrorDescriptor : Type :=
| COMPILATION_JOB_CREATION_ERROR (reason rootFilePath buildProfile : string)
| BUILD_FAILED.

(** What a [throw] can carry in the modelled code. *)
Inductive Exn : Type :=
| TypeError (msg : string)
| HardhatError (descriptor : SolidityErrorDescriptor)
| HostError (msg : string).

(** The outcome of evaluating an expression: a value, or a thrown
    exception that unwinds to the caller. *)
Inductive Completion (A : Type) : Type :=
| Returned (a : A)
| Thrown (e : Exn).

Arguments Returned {A} a.
Arguments Thrown {A} e.

Definition bind {A B : Type} (c : Completion A) (k : A -> Completion B)
  : Completion B :=
  match c with
  | Returned a => k a
  | Thrown e => Thrown e
  end.

Definition returns {A : Type} (c : Completion A) : Prop :=
  exists a, c = Returned a.

(** [string | null] results of the call-site accessors. *)
Inductive Nullable (A : Type) : Type :=
| null
| present (a : A).

Arguments null {A}.
Arguments present {A} a.

(** [x ?? null] *)
Definition orNull {A : Type} (x : option A) : Nullable A :=
  match x with
  | Some a => present a
  | None => null
  end.

(** [x ?? d] and [x !== undefined ? x : d] on an optional string. *)
Definition orElse {A : Type} (x : option A) (d : A) : A :=
  match x with
  | Some a => a
  | None => d
  end.

(** Template-literal rendering of an integral [number], and
    [bigint.toString(10)]. *)
Definition numberToString (n : N) : string :=
  DecimalString.NilZero.string_of_uint (N.to_uint n).

Definition bigintToString10 (z : Z) : string :=
  DecimalString.NilZero.string_of_int (Z.to_int z).

(** Two lowercase hexadecimal digits per byte:
    [Buffer.from(bytes).toString("hex")]. *)
Definition hexDigit (n : N) : ascii :=
  match n with
  | 0%N => "0" | 1%N => "1" | 2%N => "2" | 3%N => "3"
  | 4%N => "4" | 5%N => "5" | 6%N => "6" | 7%N => "7"
  | 8%N => "8" | 9%N => "9" | 10%N => "a" | 11%N => "b"
  | 12%N => "c" | 13%N => "d" | 14%N => "e" | _ => "f"
  end%char.

Fixpoint bufferToHex (bs : list byte) : string :=
  match bs with
  | [] => EmptyString
  | b :: rest =>
      String (hexDigit (N.div (Byte.to_N b) 16))
        (String (hexDigit (N.modulo (Byte.to_N b) 16)) (bufferToHex rest))
  end.

(** Modelled from the spec: [bytesToHexString] of the utilities package is
    not among the sources; the specification has an address "rendered as
    hex" and raw bytes "as lowercase hex prefixed with 0x". *)
Definition bytesToHexString (bs : list byte) : string :=
  "0x" ++ bufferToHex bs.

(** [s.endsWith(suffix)] *)
Definition endsWith (s suffix : string) : bool :=
  let n := String.length s in
  let k := String.length suffix in
  (k <=? n)%nat && String.eqb (String.substring (n - k) k s) suffix.

End Js.

Import Js.

Declare Scope completion_scope.
Delimit Scope completion_scope with completion.
Notation "x <- c ;; k" := (bind c (fun x => k))
  (at level 61, c at next level, right associativity) : completion_scope.

(** ** The stack-trace encoder *)

Module StackTrace.

(** *** Trace frames *)

(** Modelled from the spec: the fields of a [SourceReference] that the
    encoder reads.  The declaration lives in [solidity-stack-trace.ts],
    which is not among the sources; the specification gives a source
    reference a file name, a contract name, an optional function name and an
    optional line number. *)
Record SourceReference : Type := mkSourceReference {
  sourceName : string;
  contract : string;
  function : option string;
  line : option N
}.

(** [SolidityStackTraceEntry]: a union tagged by [StackTraceEntryType].
    Each constructor is one tag and carries the fields the encoder reads
    under that tag.  The tags are those of the exhaustive [switch] in
    [encodeStackTraceEntry]. *)
Inductive SolidityStackTraceEntry : Type :=
| CALLSTACK_ENTRY (sourceReference : SourceReference)
| UNRECOGNIZED_CREATE_CALLSTACK_ENTRY
| UNRECOGNIZED_CONTRACT_CALLSTACK_ENTRY (address : list byte)
| PRECOMPILE_ERROR (precompile : N)
| REVERT_ERROR (returnData : list byte) (sourceReference : SourceReference)
    (isInvalidOpcodeError : bool)
| PANIC_ERROR (errorCode : Z) (sourceReference : option SourceReference)
| CUSTOM_ERROR (message : string) (sourceReference : SourceReference)
| FUNCTION_NOT_PAYABLE_ERROR (value : Z) (sourceReference : SourceReference)
| INVALID_PARAMS_ERROR (sourceReference : SourceReference)
| FALLBACK_NOT_PAYABLE_ERROR (value : Z) (sourceReference : SourceReference)
| FALLBACK_NOT_PAYABLE_AND_NO_RECEIVE_ERROR (value : Z)
    (sourceReference : SourceReference)
| UNRECOGNIZED_FUNCTION_WITHOUT_FALLBACK_ERROR
    (sourceReference : SourceReference)
| MISSING_FALLBACK_OR_RECEIVE_ERROR (sourceReference : SourceReference)
| RETURNDATA_SIZE_ERROR (sourceReference : SourceReference)
| NONCONTRACT_ACCOUNT_CALLED_ERROR (sourceReference : SourceReference)
| CALL_FAILED_ERROR (sourceReference : SourceReference)
| DIRECT_LIBRARY_CALL_ERROR (sourceReference : SourceReference)
| UNRECOGNIZED_CREATE_ERROR (returnData : list byte)
    (isInvalidOpcodeError : bool)
| UNRECOGNIZED_CONTRACT_ERROR (address : list byte) (returnData : list byte)
    (isInvalidOpcodeError : bool)
| OTHER_EXECUTION_ERROR (sourceReference : option SourceReference)
| UNMAPPED_SOLC_0_6_3_REVERT_ERROR (sourceReference : option SourceReference)
| CONTRACT_TOO_LARGE_ERROR (sourceReference : option SourceReference)
| INTERNAL_FUNCTION_CALLSTACK_ENTRY (pc : N)
    (sourceReference : SourceReference)
| CONTRACT_CALL_RUN_OUT_OF_GAS_ERROR
    (sourceReference : option SourceReference).

Definition SolidityStackTrace : Type := list SolidityStackTraceEntry.

(** The source reference of a frame, for the tags that have the field. *)
Definition entrySourceReference (e : SolidityStackTraceEntry)
  : option SourceReference :=
  match e with
  | CALLSTACK_ENTRY sr
  | REVERT_ERROR _ sr _
  | CUSTOM_ERROR _ sr
  | FUNCTION_NOT_PAYABLE_ERROR _ sr
  | INVALID_PARAMS_ERROR sr
  | FALLBACK_NOT_PAYABLE_ERROR _ sr
  | FALLBACK_NOT_PAYABLE_AND_NO_RECEIVE_ERROR _ sr
  | UNRECOGNIZED_FUNCTION_WITHOUT_FALLBACK_ERROR sr
  | MISSING_FALLBACK_OR_RECEIVE_ERROR sr
  | RETURNDATA_SIZE_ERROR sr
  | NONCONTRACT_ACCOUNT_CALLED_ERROR sr
  | CALL_FAILED_ERROR sr
  | DIRECT_LIBRARY_CALL_ERROR sr
  | INTERNAL_FUNCTION_CALLSTACK_ENTRY _ sr => Some sr
  | PANIC_ERROR _ osr
  | OTHER_EXECUTION_ERROR osr
  | UNMAPPED_SOLC_0_6_3_REVERT_ERROR osr
  | CONTRACT_TOO_LARGE_ERROR osr
  | CONTRACT_CALL_RUN_OUT_OF_GAS_ERROR osr => osr
  | UNRECOGNIZED_CREATE_CALLSTACK_ENTRY
  | UNRECOGNIZED_CONTRACT_CALLSTACK_ENTRY _
  | PRECOMPILE_ERROR _
  | UNRECOGNIZED_CREATE_ERROR _ _
  | UNRECOGNIZED_CONTRACT_ERROR _ _ _ => None
  end.

(** The two tags whose call site names the unrecognized selector. *)
Definition isUnrecognizedSelectorEntry (e : SolidityStackTraceEntry) : bool :=
  match e with
  | UNRECOGNIZED_FUNCTION_WITHOUT_FALLBACK_ERROR _
  | MISSING_FALLBACK_OR_RECEIVE_ERROR _ => true
  | _ => false
  end.

Definition isInternalFunctionEntry (e : SolidityStackTraceEntry) : bool :=
  match e with
  | INTERNAL_FUNCTION_CALLSTACK_ENTRY _ _ => true
  | _ => false
  end.

(** The four tags that [getMessageFromLastStackTraceEntry] has no [case]
    for. *)
Definition hasNoMessageRule (e : SolidityStackTraceEntry) : bool :=
  match e with
  | CALLSTACK_ENTRY _
  | UNRECOGNIZED_CREATE_CALLSTACK_ENTRY
  | UNRECOGNIZED_CONTRACT_CALLSTACK_ENTRY _
  | INTERNAL_FUNCTION_CALLSTACK_ENTRY _ _ => true
  | _ => false
  end.

(** *** Synthetic call sites *)

(** The four private fields of [class SolidityCallSite]. *)
Record SolidityCallSite : Type := mkSolidityCallSite {
  cs_sourceName : option string;
  cs_contract : option string;
  cs_functionName : option string;
  cs_line : option N
}.

Definition getFileName (cs : SolidityCallSite) : string :=
  orElse (cs_sourceName cs) "unknown".

Definition getFunctionName (cs : SolidityCallSite) : Nullable string :=
  match cs_contract cs with
  | None => orNull (cs_functionName cs)
  | Some _ => null
  end.

Definition getLineNumber (cs : SolidityCallSite) : Nullable N :=
  match cs_line cs with
  | Some l => present l
  | None => null
  end.

Definition getMethodName (cs : SolidityCallSite) : Nullable string :=
  match cs_contract cs with
  | Some _ => orNull (cs_functionName cs)
  | None => null
  end.

Definition getTypeName (cs : SolidityCallSite) : Nullable string :=
  orNull (cs_contract cs).

Definition getColumnNumber (cs : SolidityCallSite) : Nullable N := null.

Definition getScriptNameOrSourceURL (cs : SolidityCallSite) : string := "".

Definition callSiteToString (cs : SolidityCallSite) : string :=
  "[SolidityCallSite]".

(** An element of the array handed to [Error.prepareStackTrace]: a frame
    the engine captured, or one of ours. *)
Inductive CallSite : Type :=
| NativeCallSite (description : string)
| SolidityFrame (site : SolidityCallSite).

(** *** What the module imports *)

(** The name constants of [solidity-stack-trace.ts].  The file is not among
    the sources, so the five strings are parameters of the development. *)
Class Names : Type := {
  CONSTRUCTOR_FUNCTION_NAME : string;
  PRECOMPILE_FUNCTION_NAME : string;
  UNKNOWN_FUNCTION_NAME : string;
  UNRECOGNIZED_CONTRACT_NAME : string;
  UNRECOGNIZED_FUNCTION_NAME : string
}.

(** The methods of the engine's [ReturnData] class that the encoder calls,
    as functions of the wrapped bytes, and [panicErrorCodeToMessage] of
    [panic-errors.ts].  Neither is among the sources.  The two decoders may
    throw. *)
Class Decoders : Type := {
  isErrorReturnData : list byte -> bool;
  decodeError : list byte -> Completion string;
  isPanicReturnData : list byte -> bool;
  decodePanic : list byte -> Completion Z;
  panicErrorCodeToMessage : Z -> string
}.

(** Modelled from the spec: the outputs of the Return-Data Classifier. *)
Inductive ReturnDataClass : Type :=
| EncodedError (reasonString : string)
| EncodedPanic (code : Z)
| Empty
| Unrecognized (rawBytes : list byte).

(** Modelled from the spec: [ReturnData.isEmpty]; the classifier answers
    "empty" exactly when "the byte sequence has zero length". *)
Definition isEmpty (returnData : list byte) : bool :=
  match returnData with
  | [] => true
  | _ :: _ => false
  end.

Section Encoder.

Context {names : Names} {decoders : Decoders}.

Local Open Scope completion_scope.

(** *** Call-site synthesis *)

Definition sourceReferenceToSolidityCallsite (sourceReference : SourceReference)
  : SolidityCallSite :=
  mkSolidityCallSite
    (Some (sourceName sourceReference))
    (Some (contract sourceReference))
    (Some (orElse (function sourceReference) UNKNOWN_FUNCTION_NAME))
    (line sourceReference).

(** [{ ...sourceReference, function: name }] *)
Definition withFunction (sourceReference : SourceReference) (name : string)
  : SourceReference :=
  mkSourceReference (sourceName sourceReference) (contract sourceReference)
    (Some name) (line sourceReference).

(** The placeholder built in three arms of the [switch] when no source
    reference is at hand. *)
Definition unrecognizedContractCallsite : SolidityCallSite :=
  mkSolidityCallSite None (Some UNRECOGNIZED_CONTRACT_NAME)
    (Some UNKNOWN_FUNCTION_NAME) None.

Definition encodeStackTraceEntry (stackTraceEntry : SolidityStackTraceEntry)
  : SolidityCallSite :=
  match stackTraceEntry with
  | UNRECOGNIZED_FUNCTION_WITHOUT_FALLBACK_ERROR sourceReference
  | MISSING_FALLBACK_OR_RECEIVE_ERROR sourceReference =>
      sourceReferenceToSolidityCallsite
        (withFunction sourceReference UNRECOGNIZED_FUNCTION_NAME)

  | CALLSTACK_ENTRY sourceReference
  | REVERT_ERROR _ sourceReference _
  | CUSTOM_ERROR _ sourceReference
  | FUNCTION_NOT_PAYABLE_ERROR _ sourceReference
  | INVALID_PARAMS_ERROR sourceReference
  | FALLBACK_NOT_PAYABLE_ERROR _ sourceReference
  | FALLBACK_NOT_PAYABLE_AND_NO_RECEIVE_ERROR _ sourceReference
  | RETURNDATA_SIZE_ERROR sourceReference
  | NONCONTRACT_ACCOUNT_CALLED_ERROR sourceReference
  | CALL_FAILED_ERROR sourceReference
  | DIRECT_LIBRARY_CALL_ERROR sourceReference =>
      sourceReferenceToSolidityCallsite sourceReference

  | UNRECOGNIZED_CREATE_CALLSTACK_ENTRY =>
      mkSolidityCallSite None (Some UNRECOGNIZED_CONTRACT_NAME)
        (Some CONSTRUCTOR_FUNCTION_NAME) None

  | UNRECOGNIZED_CONTRACT_CALLSTACK_ENTRY address =>
      mkSolidityCallSite (Some (bytesToHexString address))
        (Some UNRECOGNIZED_CONTRACT_NAME) (Some UNKNOWN_FUNCTION_NAME) None

  | PRECOMPILE_ERROR precompile =>
      mkSolidityCallSite None
        (Some ("<PrecompileContract " ++ numberToString precompile ++ ">"))
        (Some PRECOMPILE_FUNCTION_NAME) None

  | UNRECOGNIZED_CREATE_ERROR _ _ =>
      mkSolidityCallSite None (Some UNRECOGNIZED_CONTRACT_NAME)
        (Some CONSTRUCTOR_FUNCTION_NAME) None

  | UNRECOGNIZED_CONTRACT_ERROR address _ _ =>
      mkSolidityCallSite (Some (bytesToHexString address))
        (Some UNRECOGNIZED_CONTRACT_NAME) (Some UNKNOWN_FUNCTION_NAME) None

  | INTERNAL_FUNCTION_CALLSTACK_ENTRY pc sourceReference =>
      mkSolidityCallSite (Some (sourceName sourceReference))
        (Some (contract sourceReference))
        (Some ("internal@" ++ numberToString pc)) None

  | CONTRACT_CALL_RUN_OUT_OF_GAS_ERROR sourceReference =>
      match sourceReference with
      | Some sourceReference => sourceReferenceToSolidityCallsite sourceReference
      | None => unrecognizedContractCallsite
      end

  | OTHER_EXECUTION_ERROR sourceReference
  | CONTRACT_TOO_LARGE_ERROR sourceReference
  | PANIC_ERROR _ sourceReference
  | UNMAPPED_SOLC_0_6_3_REVERT_ERROR sourceReference =>
      match sourceReference with
      | None => unrecognizedContractCallsite
      | Some sourceReference => sourceReferenceToSolidityCallsite sourceReference
      end
  end.

(** *** Message synthesis *)

Definition getMessageFromLastStackTraceEntry
  (stackTraceEntry : SolidityStackTraceEntry) : Completion (option string) :=
  match stackTraceEntry with
  | PRECOMPILE_ERROR precompile =>
      Returned (Some ("Transaction reverted: call to precompile "
                      ++ numberToString precompile ++ " failed"))

  | FUNCTION_NOT_PAYABLE_ERROR value _ =>
      Returned (Some
        ("Transaction reverted: non-payable function was called with value "
         ++ bigintToString10 value))

  | INVALID_PARAMS_ERROR _ =>
      Returned (Some
        "Transaction reverted: function was called with incorrect parameters")

  | FALLBACK_NOT_PAYABLE_ERROR value _ =>
      Returned (Some
        ("Transaction reverted: fallback function is not payable and was called with value "
         ++ bigintToString10 value))

  | FALLBACK_NOT_PAYABLE_AND_NO_RECEIVE_ERROR value _ =>
      Returned (Some
        ("Transaction reverted: there's no receive function, fallback function is not payable and was called with value "
         ++ bigintToString10 value))

  | UNRECOGNIZED_FUNCTION_WITHOUT_FALLBACK_ERROR _ =>
      Returned (Some
        "Transaction reverted: function selector was not recognized and there's no fallback function")

  | MISSING_FALLBACK_OR_RECEIVE_ERROR _ =>
      Returned (Some
        "Transaction reverted: function selector was not recognized and there's no fallback nor receive function")

  | RETURNDATA_SIZE_ERROR _ =>
      Returned (Some
        "Transaction reverted: function returned an unexpected amount of data")

  | NONCONTRACT_ACCOUNT_CALLED_ERROR _ =>
      Returned (Some
        "Transaction reverted: function call to a non-contract account")

  | CALL_FAILED_ERROR _ =>
      Returned (Some "Transaction reverted: function call failed to execute")

  | DIRECT_LIBRARY_CALL_ERROR _ =>
      Returned (Some "Transaction reverted: library was called directly")

  | UNRECOGNIZED_CREATE_ERROR returnData isInvalidOpcodeError
  | UNRECOGNIZED_CONTRACT_ERROR _ returnData isInvalidOpcodeError =>
      if isErrorReturnData returnData then
        reason <- decodeError returnData ;;
        Returned (Some
          ("VM Exception while processing transaction: reverted with reason string '"
           ++ reason ++ "'"))
      else if isPanicReturnData returnData then
        code <- decodePanic returnData ;;
        Returned (Some
          ("VM Exception while processing transaction: "
           ++ panicErrorCodeToMessage code))
      else if negb (isEmpty returnData) then
        Returned (Some
          ("VM Exception while processing transaction: reverted with an unrecognized custom error (return data: 0x"
           ++ bufferToHex returnData ++ ")"))
      else if isInvalidOpcodeError then
        Returned (Some
          "VM Exception while processing transaction: invalid opcode")
      else
        Returned (Some "Transaction reverted without a reason string")

  | REVERT_ERROR returnData _ isInvalidOpcodeError =>
      if isErrorReturnData returnData then
        reason <- decodeError returnData ;;
        Returned (Some
          ("VM Exception while processing transaction: reverted with reason string '"
           ++ reason ++ "'"))
      else if isInvalidOpcodeError then
        Returned (Some
          "VM Exception while processing transaction: invalid opcode")
      else
        Returned (Some "Transaction reverted without a reason string")

  | PANIC_ERROR errorCode _ =>
      Returned (Some
        ("VM Exception while processing transaction: "
         ++ panicErrorCodeToMessage errorCode))

  | CUSTOM_ERROR message _ =>
      Returned (Some ("VM Exception while processing transaction: " ++ message))

  | OTHER_EXECUTION_ERROR _ =>
      Returned (Some
        "Transaction reverted and Hardhat couldn't infer the reason.")

  | UNMAPPED_SOLC_0_6_3_REVERT_ERROR _ =>
      Returned (Some
        "Transaction reverted without a reason string and without a valid sourcemap provided by the compiler. Some line numbers may be off. We strongly recommend upgrading solc and always using revert reasons.")

  | CONTRACT_TOO_LARGE_ERROR _ =>
      Returned (Some
        "Transaction reverted: trying to deploy a contract whose code is too large")

  | CONTRACT_CALL_RUN_OUT_OF_GAS_ERROR _ =>
      Returned (Some
        "Transaction reverted: contract call run out of gas and made the transaction revert")

  (* no [case]: control leaves the [switch] and the function returns
     [undefined] *)
  | CALLSTACK_ENTRY _
  | UNRECOGNIZED_CREATE_CALLSTACK_ENTRY
  | UNRECOGNIZED_CONTRACT_CALLSTACK_ENTRY _
  | INTERNAL_FUNCTION_CALLSTACK_ENTRY _ _ => Returned None
  end.

(** *** The branching on return data as the specification words it *)

(** The classifier's answer, obtained through the methods the encoder
    calls, in the order the specification lists the cases. *)
Definition classifyReturnData (returnData : list byte)
  : Completion ReturnDataClass :=
  if isErrorReturnData returnData then
    reasonString <- decodeError returnData ;;
    Returned (EncodedError reasonString)
  else if isPanicReturnData returnData then
    code <- decodePanic returnData ;;
    Returned (EncodedPanic code)
  else if isEmpty returnData then Returned Empty
  else Returned (Unrecognized returnData).

Definition INVALID_OPCODE_MESSAGE : string :=
  "VM Exception while processing transaction: invalid opcode".

Definition NO_REASON_MESSAGE : string :=
  "Transaction reverted without a reason string".

(** Encoded error: the reason-string message; encoded panic: the panic
    description; non-empty unrecognized bytes: the hex dump; empty with the
    invalid-opcode flag: the invalid-opcode message; otherwise the
    no-reason-string message. *)
Definition returnDataMessage (class : ReturnDataClass)
  (isInvalidOpcodeError : bool) : string :=
  match class with
  | EncodedError reasonString =>
      "VM Exception while processing transaction: reverted with reason string '"
      ++ reasonString ++ "'"
  | EncodedPanic code =>
      "VM Exception while processing transaction: "
      ++ panicErrorCodeToMessage code
  | Unrecognized ((_ :: _) as rawBytes) =>
      "VM Exception while processing transaction: reverted with an unrecognized custom error (return data: 0x"
      ++ bufferToHex rawBytes ++ ")"
  | Unrecognized []
  | Empty =>
      if isInvalidOpcodeError then INVALID_OPCODE_MESSAGE else NO_REASON_MESSAGE
  end.

Definition messageFromReturnData (returnData : list byte)
  (isInvalidOpcodeError : bool) : Completion (option string) :=
  class <- classifyReturnData returnData ;;
  Returned (Some (returnDataMessage class isInvalidOpcodeError)).

(** *** The call site of a source reference as the specification words it *)

(** File, contract and line of the reference; the function of the
    reference, or the unknown-function label when it has none; for the two
    unrecognized-selector tags the unrecognized-function label instead. *)
Definition sourceReferenceSite (entry : SolidityStackTraceEntry)
  (reference : SourceReference) : SolidityCallSite :=
  mkSolidityCallSite
    (Some (sourceName reference))
    (Some (contract reference))
    (Some (if isUnrecognizedSelectorEntry entry
           then UNRECOGNIZED_FUNCTION_NAME
           else orElse (function reference) UNKNOWN_FUNCTION_NAME))
    (line reference).

End Encoder.

(** *** The error object and the rendering hook *)

(** [class SolidityError extends Error]: the message given to [super], the
    trace kept in the [stackTrace] field, and the own [stack] property once
    it has been written. *)
Record SolidityError : Type := mkSolidityError {
  message : string;
  stackTrace : SolidityStackTrace;
  stack : option string
}.

(** [inspect()] *)
Definition inspect (e : SolidityError) : string :=
  orElse (stack e) "Internal error when encoding SolidityError".

(** A function object stored in [Error.prepareStackTrace].

    [HostPrepare] is a hook some other code of the process installed; all
    that is known of it is what it does when called.  [EncoderPrepare] is
    the arrow function that [encodeSolidityStackTrace] creates: a closure
    over [previousStack], [stackTrace] and [previousPrepareStackTrace]. *)
#[warnings="-register-all"]
Inductive PrepareStackTrace : Type :=
| HostPrepare (render : SolidityError -> list CallSite -> Completion string)
| EncoderPrepare (previousStack : option (list CallSite))
    (stackTrace : SolidityStackTrace)
    (previousPrepareStackTrace : option PrepareStackTrace).

(** The part of the JavaScript engine the encoder interacts with: the
    mutable static property [Error.prepareStackTrace] ([None] is
    [undefined]) and the engine's own formatter, used when no hook is
    installed. *)
Record Engine : Type := mkEngine {
  prepareStackTrace : option PrepareStackTrace;
  formatStackTrace : SolidityError -> list CallSite -> string
}.

Definition setPrepareStackTrace (engine : Engine)
  (hook : option PrepareStackTrace) : Engine :=
  mkEngine hook (formatStackTrace engine).

(** Code that reads and writes the engine and may throw. *)
Definition Eff (A : Type) : Type := Engine -> Completion A * Engine.

Definition retE {A : Type} (a : A) : Eff A :=
  fun engine => (Returned a, engine).

Definition bindE {A B : Type} (m : Eff A) (k : A -> Eff B) : Eff B :=
  fun engine =>
    match m engine with
    | (Returned a, engine') => k a engine'
    | (Thrown e, engine') => (Thrown e, engine')
    end.

Definition lift {A : Type} (c : Completion A) : Eff A :=
  fun engine => (c, engine).

Definition readPrepareStackTrace : Eff (option PrepareStackTrace) :=
  fun engine => (Returned (prepareStackTrace engine), engine).

Definition writePrepareStackTrace (hook : option PrepareStackTrace) : Eff unit :=
  fun engine => (Returned tt, setPrepareStackTrace engine hook).

Declare Scope eff_scope.
Delimit Scope eff_scope with eff.
Notation "x <- c ;; k" := (bindE c (fun x => k))
  (at level 61, c at next level, right associativity) : eff_scope.
Notation "c ;; k" := (bindE c (fun _ => k))
  (at level 61, right associativity) : eff_scope.

(** How many encoder closures a hook is wrapped in. *)
Fixpoint wrappers (hook : PrepareStackTrace) : nat :=
  match hook with
  | HostPrepare _ => 0
  | EncoderPrepare _ _ previous =>
      match previous with
      | Some previous => S (wrappers previous)
      | None => 1
      end
  end.

Section Hook.

Context {names : Names} {decoders : Decoders}.

(** [for (const entry of stackTrace) stack.unshift(encodeStackTraceEntry(entry))].
    The [callsite === undefined] guard never fires: every tag has an arm in
    [encodeStackTraceEntry]. *)
Definition unshiftAll (stackTrace : SolidityStackTrace) (stack : list CallSite)
  : list CallSite :=
  fold_left
    (fun stack entry => SolidityFrame (encodeStackTraceEntry entry) :: stack)
    stackTrace stack.

(** Calling a hook with [(error, stack)].  For the encoder's arrow function:
    [stack] is replaced by [previousStack] when that was given, and loses its
    first element ([splice(0, 1)]) otherwise; the synthesized frames are
    unshifted; the result is whatever [previousPrepareStackTrace] returns,
    and calling [undefined] throws a [TypeError]. *)
Fixpoint callPrepareStackTrace (hook : PrepareStackTrace)
  (error : SolidityError) (stack : list CallSite) : Completion string :=
  match hook with
  | HostPrepare render => render error stack
  | EncoderPrepare previousStack stackTrace previousPrepareStackTrace =>
      let stack :=
        match previousStack with
        | Some previousStack => previousStack
        | None => skipn 1 stack
        end in
      let stack := unshiftAll stackTrace stack in
      match previousPrepareStackTrace with
      | Some previous => callPrepareStackTrace previous error stack
      | None => Thrown (TypeError "previousPrepareStackTrace is not a function")
      end
  end.

(** Reading [error.stack] for the first time.  The engine formats lazily: it
    calls the hook that is installed at that moment on the frames captured
    when the error was constructed, and an exception of the hook surfaces at
    the read. *)
Definition readStack (error : SolidityError) (captured : list CallSite)
  : Eff string :=
  fun engine =>
    match prepareStackTrace engine with
    | Some hook => (callPrepareStackTrace hook error captured, engine)
    | None => (Returned (formatStackTrace engine error captured), engine)
    end.

(** [stackTrace[stackTrace.length - 1]] *)
Definition lastIndex (stackTrace : SolidityStackTrace)
  : option SolidityStackTraceEntry :=
  nth_error stackTrace (List.length stackTrace - 1).

(** Reading [.type] of the argument of [getMessageFromLastStackTraceEntry]:
    a [TypeError] when the indexing above produced [undefined]. *)
Definition requireEntry (entry : option SolidityStackTraceEntry)
  : Completion SolidityStackTraceEntry :=
  match entry with
  | Some entry => Returned entry
  | None =>
      Thrown (TypeError "Cannot read properties of undefined (reading 'type')")
  end.

(** *** The encoder *)

(** [captured] stands for the native frames the engine records when
    [new SolidityError] runs. *)
Definition encodeSolidityStackTrace (fallbackMessage : string)
  (stackTrace : SolidityStackTrace) (previousStack : option (list CallSite))
  (captured : list CallSite) : Eff SolidityError :=
  (previousPrepareStackTrace <- readPrepareStackTrace ;;
   writePrepareStackTrace
     (Some (EncoderPrepare previousStack stackTrace previousPrepareStackTrace)) ;;
   entry <- lift (requireEntry (lastIndex stackTrace)) ;;
   msg <- lift (getMessageFromLastStackTraceEntry entry) ;;
   let solidityError :=
     mkSolidityError (orElse msg fallbackMessage) stackTrace None in
   rendered <- readStack solidityError captured ;;
   let solidityError :=
     mkSolidityError (message solidityError) (StackTrace.stackTrace solidityError)
       (Some rendered) in
   writePrepareStackTrace previousPrepareStackTrace ;;
   retE solidityError)%eff.

End Hook.

End StackTrace.

(** *** Reference collaborators *)

(** Concrete stand-ins for the imported pieces, used to run the encoder on
    examples. *)
Module Reference.

Import StackTrace.

(** Modelled from the spec: the name constants, which the specification
    calls the fixed "constructor", "precompile", "unknown function",
    "unrecognized contract" and "unrecognized function" labels. *)
#[local] Instance names : Names := {|
  CONSTRUCTOR_FUNCTION_NAME := "constructor";
  PRECOMPILE_FUNCTION_NAME := "precompile";
  UNKNOWN_FUNCTION_NAME := "unknown function";
  UNRECOGNIZED_CONTRACT_NAME := "unrecognized contract";
  UNRECOGNIZED_FUNCTION_NAME := "unrecognized function"
|}.

(** The standard selectors of [Error(string)] and [Panic(uint256)]. *)
Definition ERROR_SELECTOR : list byte := [x08; xc3; x79; xa0]%byte.
Definition PANIC_SELECTOR : list byte := [x4e; x48; x7b; x71]%byte.

Definition bytesEqb (a b : list byte) : bool :=
  String.eqb (string_of_list_byte a) (string_of_list_byte b).

(** A big-endian unsigned integer. *)
Definition wordToN (bs : list byte) : N :=
  fold_left (fun acc b => (acc * 256 + Byte.to_N b)%N) bs 0%N.

(** ABI decoding of a single [uint256]: the first 32-byte word. *)
Definition abiDecodeUint (payload : list byte) : option N :=
  if (List.length payload <? 32)%nat then None
  else Some (wordToN (firstn 32 payload)).

(** ABI decoding of a single [string]: a word with the offset of the
    string, there a word with its length, then that many bytes. *)
Definition abiDecodeString (payload : list byte) : option string :=
  match abiDecodeUint payload with
  | None => None
  | Some offset =>
      if (N.of_nat (List.length payload) <? offset)%N then None
      else
        let tail := skipn (N.to_nat offset) payload in
        match abiDecodeUint tail with
        | None => None
        | Some len =>
            let body := skipn 32 tail in
            if (N.of_nat (List.length body) <? len)%N then None
            else Some (string_of_list_byte (firstn (N.to_nat len) body))
        end
  end.

(** Modelled from the spec: the Return-Data Classifier.  The first four
    bytes are the selector; a payload that does not decode under a matched
    selector is unrecognized; zero length is empty; anything else is
    unrecognized and keeps its bytes. *)
Definition classify (returnData : list byte) : ReturnDataClass :=
  if bytesEqb (firstn 4 returnData) ERROR_SELECTOR then
    match abiDecodeString (skipn 4 returnData) with
    | Some reasonString => EncodedError reasonString
    | None => Unrecognized returnData
    end
  else if bytesEqb (firstn 4 returnData) PANIC_SELECTOR then
    match abiDecodeUint (skipn 4 returnData) with
    | Some code => EncodedPanic (Z.of_N code)
    | None => Unrecognized returnData
    end
  else if (List.length returnData =? 0)%nat then Empty
  else Unrecognized returnData.

(** Modelled from the spec: the Panic Code Table, with the specification's
    descriptions and its generic message for an unknown code. *)
Definition panicDescription (code : Z) : string :=
  match code with
  | 0x01%Z => "assertion failure"
  | 0x11%Z => "arithmetic overflow/underflow"
  | 0x12%Z => "division or modulo by zero"
  | 0x21%Z => "invalid enum conversion"
  | 0x22%Z => "invalid encoded storage byte array"
  | 0x31%Z => "pop on empty array"
  | 0x32%Z => "out-of-bounds array access"
  | 0x41%Z => "out-of-memory / oversized allocation"
  | 0x51%Z => "call to an uninitialized internal function pointer"
  | _ =>
      "unknown panic code 0x"
      ++ HexadecimalString.NilZero.string_of_uint (N.to_hex_uint (Z.to_N code))
  end.

(** The classifier behind the method interface the encoder calls. *)
#[local] Instance decoders : Decoders := {|
  isErrorReturnData bs :=
    match classify bs with EncodedError _ => true | _ => false end;
  decodeError bs :=
    match classify bs with
    | EncodedError reasonString => Returned reasonString
    | _ => Thrown (HostError "not an Error(string) payload")
    end;
  isPanicReturnData bs :=
    match classify bs with EncodedPanic _ => true | _ => false end;
  decodePanic bs :=
    match classify bs with
    | EncodedPanic code => Returned code
    | _ => Thrown (HostError "not a Panic(uint256) payload")
    end;
  panicErrorCodeToMessage := panicDescription
|}.

(** A decoder that gives up under a matched selector, as an ABI library
    does on a truncated payload. *)
Definition strictDecoders : Decoders := {|
  isErrorReturnData bs := bytesEqb (firstn 4 bs) ERROR_SELECTOR;
  decodeError bs :=
    match abiDecodeString (skipn 4 bs) with
    | Some reasonString => Returned reasonString
    | None => Thrown (HostError "malformed Error(string) payload")
    end;
  isPanicReturnData bs := bytesEqb (firstn 4 bs) PANIC_SELECTOR;
  decodePanic bs :=
    match abiDecodeUint (skipn 4 bs) with
    | Some code => Returned (Z.of_N code)
    | None => Thrown (HostError "malformed Panic(uint256) payload")
    end;
  panicErrorCodeToMessage := panicDescription
|}.

(** A host hook that renders the message followed by one line per frame,
    and one that always throws. *)
Definition describeCallSite (c : CallSite) : string :=
  match c with
  | NativeCallSite description => description
  | SolidityFrame site =>
      match getTypeName site, getMethodName site with
      | present t, present m => t ++ "." ++ m ++ " (" ++ getFileName site ++ ")"
      | _, _ => getFileName site
      end
  end.

Definition plainRender (error : SolidityError) (stack : list CallSite)
  : Completion string :=
  Returned
    (fold_left (fun acc c => acc ++ " | at " ++ describeCallSite c) stack
       (message error)).

Definition throwingRender (error : SolidityError) (stack : list CallSite)
  : Completion string :=
  Thrown (HostError "prepareStackTrace failed").

Definition engineWith (hook : option PrepareStackTrace) : Engine :=
  mkEngine hook (fun error stack => message error).

(** The ABI encoding of [Error("boom")] and of [Panic(0x11)]. *)
Definition zeros (n : nat) : list byte := repeat x00%byte n.

Definition errorBoom : list byte :=
  (ERROR_SELECTOR
   ++ zeros 31 ++ [x20%byte]
   ++ zeros 31 ++ [x04%byte]
   ++ list_byte_of_string "boom" ++ zeros 28)%list.

Definition panic0x11 : list byte :=
  (PANIC_SELECTOR ++ zeros 31 ++ [x11%byte])%list.

End Reference.

(** ** The Solidity build helpers *)

Module Build.

Local Open Scope completion_scope.

(** *** Build results *)

Inductive FileBuildResultType : Type :=
| CACHE_HIT
| BUILD_SUCCESS
| BUILD_FAILURE.

Definition typeEqb (a b : FileBuildResultType) : bool :=
  match a, b with
  | CACHE_HIT, CACHE_HIT
  | BUILD_SUCCESS, BUILD_SUCCESS
  | BUILD_FAILURE, BUILD_FAILURE => true
  | _, _ => false
  end.

(** Modelled from the spec: [FileBuildResult], declared in
    [types/solidity/build-system.ts], which is not among the sources.  The
    specification has the variants CacheHit, BuildSuccess and BuildFailed;
    [buildId] and [contractArtifactsGenerated] are the two fields
    [getArtifacts] reads from every entry of a validated map, so both
    variants that survive validation carry them. *)
Inductive FileBuildResult : Type :=
| CacheHitFileBuildResult (buildId : string)
    (contractArtifactsGenerated : list string)
| SuccessfulFileBuildResult (buildId : string)
    (contractArtifactsGenerated : list string)
| FailedFileBuildResult.

Definition type (r : FileBuildResult) : FileBuildResultType :=
  match r with
  | CacheHitFileBuildResult _ _ => CACHE_HIT
  | SuccessfulFileBuildResult _ _ => BUILD_SUCCESS
  | FailedFileBuildResult => BUILD_FAILURE
  end.

(** The invariant of a successful outcome, entry by entry. *)
Definition isNonFailed (r : FileBuildResult) : Prop :=
  type r = CACHE_HIT \/ type r = BUILD_SUCCESS.

(** [Exclude<FileBuildResult, FailedFileBuildResult>] *)
Inductive NonFailedFileBuildResult : Type :=
| CacheHit (buildId : string) (contractArtifactsGenerated : list string)
| BuildSuccess (buildId : string) (contractArtifactsGenerated : list string).

Definition buildId (r : NonFailedFileBuildResult) : string :=
  match r with
  | CacheHit b _ | BuildSuccess b _ => b
  end.

Definition contractArtifactsGenerated (r : NonFailedFileBuildResult)
  : list string :=
  match r with
  | CacheHit _ ps | BuildSuccess _ ps => ps
  end.

(** The inclusion of the narrowed type in the full one. *)
Definition widen (r : NonFailedFileBuildResult) : FileBuildResult :=
  match r with
  | CacheHit b ps => CacheHitFileBuildResult b ps
  | BuildSuccess b ps => SuccessfulFileBuildResult b ps
  end.

(** [CompilationJobCreationError], declared in the same missing file: the
    property [throwIfSolidityBuildFailed] tests for ([reason]) and the
    three it reads ([formattedReason], [rootFilePath], [buildProfile]). *)
Record CompilationJobCreationError : Type := mkCompilationJobCreationError {
  reason : string;
  rootFilePath : string;
  buildProfile : string;
  formattedReason : string
}.

(** A JavaScript [Map] with string keys, in insertion order. *)
Definition StringMap (V : Type) : Type := list (string * V).

Definition values {V : Type} (m : StringMap V) : list V := map snd m.

Definition keys {V : Type} (m : StringMap V) : list string := map fst m.

(** [Map<string, FileBuildResult> | CompilationJobCreationError] *)
Inductive SolidityBuildResults : Type :=
| ResultsMap (results : StringMap FileBuildResult)
| JobCreationError (error : CompilationJobCreationError).

Definition SuccessfulSolidityBuildResults : Type :=
  StringMap NonFailedFileBuildResult.

(** *** Validation *)

(** The function returns nothing: it either throws or lets the caller go
    on with [results] typed as [SuccessfulSolidityBuildResults]. *)
Definition throwIfSolidityBuildFailed (results : SolidityBuildResults)
  : Completion unit :=
  match results with
  | JobCreationError results =>
      (* "reason" in results *)
      Thrown (HardhatError
        (COMPILATION_JOB_CREATION_ERROR (formattedReason results)
           (rootFilePath results) (buildProfile results)))
  | ResultsMap results =>
      let sucessful :=
        forallb
          (fun r => typeEqb (type r) CACHE_HIT || typeEqb (type r) BUILD_SUCCESS)
          (values results) in
      if negb sucessful then Thrown (HardhatError BUILD_FAILED)
      else Returned tt
  end.

(** What the [asserts results is SuccessfulSolidityBuildResults] signature
    lets the caller do afterwards: view the same entries at the narrowed
    type.  [None] when some entry has no narrowed view. *)
Definition narrowResult (r : FileBuildResult) : option NonFailedFileBuildResult :=
  match r with
  | CacheHitFileBuildResult b ps => Some (CacheHit b ps)
  | SuccessfulFileBuildResult b ps => Some (BuildSuccess b ps)
  | FailedFileBuildResult => None
  end.

Fixpoint narrowMap (m : StringMap FileBuildResult)
  : option SuccessfulSolidityBuildResults :=
  match m with
  | [] => Some []
  | (k, r) :: rest =>
      match narrowResult r, narrowMap rest with
      | Some r', Some rest' => Some ((k, r') :: rest')
      | _, _ => None
      end
  end.

Definition narrow (results : SolidityBuildResults)
  : option SuccessfulSolidityBuildResults :=
  match results with
  | ResultsMap m => narrowMap m
  | JobCreationError _ => None
  end.

(** *** Artifacts *)

(** The fields of a Hardhat artifact file and of a build-info file that
    [getArtifacts] reads.  [abi] is a JSON value; its type is left open. *)
Record HardhatArtifact (Abi : Type) : Type := mkHardhatArtifact {
  contractName : string;
  abi : Abi;
  bytecode : string;
  deployedBytecode : string
}.

Arguments mkHardhatArtifact {Abi}.
Arguments contractName {Abi}.
Arguments abi {Abi}.
Arguments bytecode {Abi}.
Arguments deployedBytecode {Abi}.

Record BuildInfo : Type := mkBuildInfo {
  solcVersion : string
}.

(** The engine's [ArtifactId] and [Artifact]. *)
Record EdrArtifactId : Type := mkEdrArtifactId {
  name : string;
  id_solcVersion : string;
  source : string
}.

Record EdrContract : Type := mkEdrContract {
  c_abi : string;
  c_bytecode : string;
  c_deployedBytecode : string
}.

Record EdrArtifact : Type := mkEdrArtifact {
  id : EdrArtifactId;
  contract : EdrContract
}.

(** The platform services the two functions call: [readJsonFile] at the two
    types it is used at (a rejected promise is a throw at the [await]),
    [path.join], [path.relative] and [JSON.stringify]. *)
Class Platform : Type := {
  Abi : Type;
  readArtifactJson : string -> Completion (HardhatArtifact Abi);
  readBuildInfoJson : string -> Completion BuildInfo;
  pathJoin : list string -> string;
  pathRelative : string -> string -> string;
  jsonStringify : Abi -> string
}.

(** A [for ... of] loop whose body updates an accumulator and may throw. *)
Fixpoint forOf {A S : Type} (xs : list A) (body : A -> S -> Completion S)
  (s : S) : Completion S :=
  match xs with
  | [] => Returned s
  | x :: rest => s' <- body x s ;; forOf rest body s'
  end.

Section Aggregation.

Context {platform : Platform}.

Definition buildInfoPath (artifactsRootPath : string)
  (result : NonFailedFileBuildResult) : string :=
  pathJoin [artifactsRootPath; "build-info"; buildId result ++ ".json"].

(** The record pushed for one artifact path, from the two documents read. *)
Definition makeArtifact (source : string) (artifact : HardhatArtifact Abi)
  (buildInfo : BuildInfo) : EdrArtifact :=
  let id := mkEdrArtifactId (contractName artifact) (solcVersion buildInfo) source in
  let contract :=
    mkEdrContract (jsonStringify (abi artifact)) (bytecode artifact)
      (deployedBytecode artifact) in
  mkEdrArtifact id contract.

Definition getArtifacts (results : SuccessfulSolidityBuildResults)
  (artifactsRootPath : string) : Completion (list EdrArtifact) :=
  forOf results
    (fun '(source, result) artifacts =>
       forOf (contractArtifactsGenerated result)
         (fun artifactPath artifacts =>
            artifact <- readArtifactJson artifactPath ;;
            buildInfo <- readBuildInfoJson (buildInfoPath artifactsRootPath result) ;;
            Returned (artifacts ++ [makeArtifact source artifact buildInfo])%list)
         artifacts)
    [].

(** *** Test suites *)

(** [xs.includes(x)] on strings. *)
Definition includes (xs : list string) (x : string) : bool :=
  existsb (String.eqb x) xs.

Definition getTestSuiteIds (artifacts : list EdrArtifact)
  (rootFilePaths : list string) (projectRoot : string) : list EdrArtifactId :=
  let testSources :=
    map (fun p => pathRelative projectRoot p)
      (filter (fun p => endsWith p ".t.sol") rootFilePaths) in
  filter (fun i => includes testSources (source i)) (map id artifacts).

End Aggregation.

(** *** The aggregator as the specification words it *)

Section AggregatorSpec.

Context {platform : Platform}.

(** One record per generated-artifact path, given what the two files hold:
    entries in map order, paths in the order of the entry. *)
Definition aggregate
  (artifactAt : string -> HardhatArtifact Abi) (buildInfoAt : string -> BuildInfo)
  (results : SuccessfulSolidityBuildResults) (artifactsRootPath : string)
  : list EdrArtifact :=
  flat_map
    (fun entry : string * NonFailedFileBuildResult =>
       let (sourcePath, result) := entry in
       map
         (fun artifactPath =>
            let artifact := artifactAt artifactPath in
            let metadata :=
              buildInfoAt
                (pathJoin [artifactsRootPath; "build-info";
                           buildId result ++ ".json"]) in
            mkEdrArtifact
              (mkEdrArtifactId (contractName artifact) (solcVersion metadata)
                 sourcePath)
              (mkEdrContract (jsonStringify (abi artifact)) (bytecode artifact)
                 (deployedBytecode artifact)))
         (contractArtifactsGenerated result))
    results.

End AggregatorSpec.

(** Modelled from the spec: a platform over an in-memory content store, the
    "injected fake content-store" of the design notes.  Paths are joined
    with a slash; a path is made relative by dropping the root and the
    slash after it; the ABI is kept as its JSON text. *)
Module Fake.

Definition stripRoot (root p : string) : string :=
  let prefix := root ++ "/" in
  if String.prefix prefix p
  then String.substring (String.length prefix)
         (String.length p - String.length prefix) p
  else p.

Definition lookup {V : Type} (store : StringMap V) (p : string) : Completion V :=
  match find (fun kv => String.eqb (fst kv) p) store with
  | Some kv => Returned (snd kv)
  | None => Thrown (HostError ("ENOENT: " ++ p))
  end.

Definition platform (artifacts : StringMap (HardhatArtifact string))
  (buildInfos : StringMap BuildInfo) : Platform := {|
  Abi := string;
  readArtifactJson := lookup artifacts;
  readBuildInfoJson := lookup buildInfos;
  pathJoin := String.concat "/";
  pathRelative := stripRoot;
  jsonStringify := fun abi => abi
|}.

End Fake.

End Build.

(** ** What the rendering hook hands on *)

Module Frames.

Import StackTrace.

(** The address of a frame, for the two tags that have the field. *)
Definition entryAddress (e : SolidityStackTraceEntry) : option (list byte) :=
  match e with
  | UNRECOGNIZED_CONTRACT_CALLSTACK_ENTRY address
  | UNRECOGNIZED_CONTRACT_ERROR address _ _ => Some address
  | _ => None
  end.

(** The return data of a frame, for the three tags that have the field,
    and whether the frame's message rule also tries the panic decoder. *)
Definition entryReturnData (e : SolidityStackTraceEntry) : option (list byte) :=
  match e with
  | REVERT_ERROR returnData _ _
  | UNRECOGNIZED_CREATE_ERROR returnData _
  | UNRECOGNIZED_CONTRACT_ERROR _ returnData _ => Some returnData
  | _ => None
  end.

Definition decodesPanic (e : SolidityStackTraceEntry) : bool :=
  match e with
  | UNRECOGNIZED_CREATE_ERROR _ _
  | UNRECOGNIZED_CONTRACT_ERROR _ _ _ => true
  | _ => false
  end.

(** The call sites of a trace, last frame first. *)
Definition syntheticFrames {names : Names} (trace : SolidityStackTrace)
  : list CallSite :=
  rev (map (fun entry => SolidityFrame (encodeStackTraceEntry entry)) trace).

(** The native part of the stack the closure works on: [previousStack] when
    the caller gave one, else the captured frames without the first. *)
Definition nativeFrames (previousStack : option (list CallSite))
  (captured : list CallSite) : list CallSite :=
  match previousStack with
  | Some previousStack => previousStack
  | None => skipn 1 captured
  end.

(** Calling [Error.prepareStackTrace] as the closure does: a [TypeError]
    when it holds [undefined]. *)
Definition callPrevious {names : Names} (previous : option PrepareStackTrace)
  (error : SolidityError) (stack : list CallSite) : Completion string :=
  match previous with
  | Some hook => callPrepareStackTrace hook error stack
  | None => Thrown (TypeError "previousPrepareStackTrace is not a function")
  end.

End Frames.

(** ** The command-line error printer *)

Module Cli.

Import StackTrace.

Inductive ErrorCategory : Type :=
| HARDHAT
| PLUGIN
| COMMUNITY_PLUGIN
| OTHER.

(** The properties of an [Error] instance that the printer reads: [code]
    ([None] when the object has no such property), [message] and [stack]. *)
Record ErrorObject : Type := mkErrorObject {
  err_code : option string;
  err_message : string;
  err_stack : option string
}.

(** What [HardhatError.isHardhatError] accepts, with the fields read from
    it. *)
Record HardhatErrorObject : Type := mkHardhatErrorObject {
  he_pluginId : option string;
  he_errorCode : string;
  he_formattedMessage : string;
  he_base : ErrorObject
}.

(** What [HardhatPluginError.isHardhatPluginError] accepts. *)
Record HardhatPluginErrorObject : Type := mkHardhatPluginErrorObject {
  pe_pluginId : string;
  pe_base : ErrorObject
}.

(** The [unknown] argument of [printErrorMessages].  A value that is not an
    [Error] instance is known by the text [util.inspect] gives for it. *)
Inductive Value : Type :=
| HardhatErrorValue (error : HardhatErrorObject)
| HardhatPluginErrorValue (error : HardhatPluginErrorObject)
| ErrorValue (error : ErrorObject)
| OtherValue (inspected : string).

(** [error instanceof Error], with the instance. *)
Definition asError (error : Value) : option ErrorObject :=
  match error with
  | HardhatErrorValue e => Some (he_base e)
  | HardhatPluginErrorValue e => Some (pe_base e)
  | ErrorValue e => Some e
  | OtherValue _ => None
  end.

(** [type ErrorWithCategory] *)
Inductive ErrorWithCategory : Type :=
| InHardhat (categorizedError : HardhatErrorObject)
| InPlugin (categorizedError : HardhatErrorObject)
| InCommunityPlugin (categorizedError : HardhatPluginErrorObject)
| InOther (categorizedError : Value).

Definition category (e : ErrorWithCategory) : ErrorCategory :=
  match e with
  | InHardhat _ => HARDHAT
  | InPlugin _ => PLUGIN
  | InCommunityPlugin _ => COMMUNITY_PLUGIN
  | InOther _ => OTHER
  end.

Definition categoryEqb (a b : ErrorCategory) : bool :=
  match a, b with
  | HARDHAT, HARDHAT | PLUGIN, PLUGIN
  | COMMUNITY_PLUGIN, COMMUNITY_PLUGIN | OTHER, OTHER => true
  | _, _ => false
  end.

(** [interface ErrorMessages] *)
Record ErrorMessages : Type := mkErrorMessages {
  formattedErrorMessage : string;
  showMoreInfoMessage : option string;
  postErrorStackTraceMessage : option string
}.

(** [s.includes(text)] *)
Fixpoint includesText (s text : string) : bool :=
  String.prefix text s ||
  match s with
  | EmptyString => false
  | String _ rest => includesText rest text
  end.

(** A template literal around an optional string. *)
Definition templateOf (x : option string) : string :=
  orElse x "undefined".

Definition quote : string := String (ascii_of_nat 34) EmptyString.

Definition newline : string := String (ascii_of_nat 10) EmptyString.

(** [chalk.red.bold] and the two constants of [constants.ts], none of which
    is among the sources. *)
Class Branding : Type := {
  redBold : string -> string;
  HARDHAT_NAME : string;
  HARDHAT_WEBSITE_URL : string
}.

Definition isRequireESMError (error : Value) : bool :=
  match asError error with
  | Some e =>
      match err_code e with
      | Some code =>
          String.eqb code "ERR_REQUIRE_CYCLE_MODULE"
          && includesText (err_message e) "Cannot require() ES Module"
      | None => false
      end
  | None => false
  end.

Definition ESM_ONLY_MESSAGE : string :=
  "Hardhat only supports ESM projects." ++ newline ++ newline
  ++ "Please make sure you have `" ++ quote ++ "type" ++ quote ++ ": "
  ++ quote ++ "module" ++ quote ++ "` in your package.json".

Definition getErrorWithCategory (error : Value) : ErrorWithCategory :=
  match error with
  | HardhatErrorValue e =>
      match he_pluginId e with
      | None => InHardhat e
      | Some _ => InPlugin e
      end
  | HardhatPluginErrorValue e => InCommunityPlugin e
  | _ => InOther error
  end.

Section Printer.

Context {branding : Branding}.

Definition getErrorMessages (error : Value) : ErrorMessages :=
  match getErrorWithCategory error with
  | InHardhat categorizedError =>
      mkErrorMessages
        (redBold ("Error " ++ he_errorCode categorizedError ++ ":") ++ " "
         ++ he_formattedMessage categorizedError)
        (Some ("For more info go to " ++ HARDHAT_WEBSITE_URL
               ++ he_errorCode categorizedError ++ " or run " ++ HARDHAT_NAME
               ++ " with --show-stack-traces"))
        None
  | InPlugin categorizedError =>
      mkErrorMessages
        (redBold ("Error " ++ he_errorCode categorizedError ++ " in plugin "
                  ++ templateOf (he_pluginId categorizedError) ++ ":")
         ++ " " ++ he_formattedMessage categorizedError)
        (Some ("For more info go to " ++ HARDHAT_WEBSITE_URL
               ++ he_errorCode categorizedError ++ " or run " ++ HARDHAT_NAME
               ++ " with --show-stack-traces"))
        None
  | InCommunityPlugin categorizedError =>
      mkErrorMessages
        (redBold ("Error in community plugin " ++ pe_pluginId categorizedError
                  ++ ":")
         ++ " " ++ err_message (pe_base categorizedError))
        (Some ("For more info run " ++ HARDHAT_NAME
               ++ " with --show-stack-traces"))
        None
  | InOther _ =>
      mkErrorMessages
        (redBold "An unexpected error occurred:")
        None
        (Some ("If you think this is a bug in Hardhat, please report it here: "
               ++ HARDHAT_WEBSITE_URL ++ "report-bug"))
  end.

(** [error instanceof Error ? `${error.stack}` : `${util.inspect(error)}`] *)
Definition stackText (error : Value) : string :=
  match error with
  | HardhatErrorValue e => templateOf (err_stack (he_base e))
  | HardhatPluginErrorValue e => templateOf (err_stack (pe_base e))
  | ErrorValue e => templateOf (err_stack e)
  | OtherValue inspected => inspected
  end.

(** The arguments of the successive calls of [print]. *)
Definition printErrorMessages (error : Value) (shouldShowStackTraces : bool)
  : list string :=
  if isRequireESMError error then [ESM_ONLY_MESSAGE]
  else
    let showStackTraces :=
      shouldShowStackTraces
      || categoryEqb (category (getErrorWithCategory error)) OTHER in
    let messages := getErrorMessages error in
    ([formattedErrorMessage messages; ""]
     ++ (if showStackTraces then
           [stackText error]
           ++ match postErrorStackTraceMessage messages with
              | Some post => [""; post]
              | None => []
              end
         else
           match showMoreInfoMessage messages with
           | Some more => [more]
           | None => []
           end))%list.

End Printer.

(** A [SolidityError] as the printer sees it: an [Error] instance with the
    message and stack it was given and no [code] property. *)
Definition ofSolidityError (error : SolidityError) : Value :=
  ErrorValue (mkErrorObject None (message error) (stack error)).

(** Branding for examples: no colour. *)
Definition plainBranding : Branding := {|
  redBold := fun s => s;
  HARDHAT_NAME := "hardhat";
  HARDHAT_WEBSITE_URL := "https://hardhat.org/"
|}.

End Cli.

(* ================================================================== *)
(** * Part II: properties *)
(* ================================================================== *)

Import StackTrace.

(** ** Call sites *)

Section CallSiteProperties.

Context {names : Names}.

Lemma sourceReferenceToSolidityCallsite_fields (sr : SourceReference) :
  let site := sourceReferenceToSolidityCallsite sr in
  cs_sourceName site = Some (sourceName sr) /\
  cs_contract site = Some (contract sr) /\
  cs_functionName site = Some (orElse (function sr) UNKNOWN_FUNCTION_NAME) /\
  cs_line site = line sr.
Proof. cbn. repeat split. Qed.

Lemma withFunction_overrides (sr : SourceReference) (name : string) :
  sourceReferenceToSolidityCallsite (withFunction sr name) =
  mkSolidityCallSite (Some (sourceName sr)) (Some (contract sr)) (Some name)
    (line sr).
Proof. reflexivity. Qed.

(** C6, as amended.  A frame that carries a source reference and is not an
    internal-function call-stack entry gets the call site of that reference:
    its file, contract and line, its function or the unknown-function label,
    and the unrecognized-function label for the two unrecognized-selector
    tags.  An internal-function entry keeps file and contract, is named
    [internal@<pc>] and has no line. *)
Theorem encodeStackTraceEntry_source_reference
  (entry : SolidityStackTraceEntry) (reference : SourceReference) :
  entrySourceReference entry = Some reference ->
  (isInternalFunctionEntry entry = false ->
   encodeStackTraceEntry entry = sourceReferenceSite entry reference) /\
  (forall pc, entry = INTERNAL_FUNCTION_CALLSTACK_ENTRY pc reference ->
   encodeStackTraceEntry entry =
   mkSolidityCallSite (Some (sourceName reference)) (Some (contract reference))
     (Some ("internal@" ++ numberToString pc)) None).
Proof.
  intros Href. split.
  - intros Hinternal.
    destruct entry; cbn in Href, Hinternal |- *;
      try discriminate;
      try (injection Href as ->; reflexivity);
      subst; reflexivity.
  - intros pc ->. reflexivity.
Qed.

End CallSiteProperties.

Lemma encodeStackTraceEntry_source_reference_witness :
  let reference := mkSourceReference "A.sol" "A" (Some "f") (Some 10%N) in
  let site := encodeStackTraceEntry (names := Reference.names)
                (CALLSTACK_ENTRY reference) in
  getFileName site = "A.sol" /\ getTypeName site = present "A" /\
  getMethodName site = present "f" /\ getLineNumber site = present 10%N.
Proof.
  intros reference site.
  pose proof (encodeStackTraceEntry_source_reference (names := Reference.names)
                (CALLSTACK_ENTRY reference) reference eq_refl) as [H _].
  unfold site. rewrite (H eq_refl). cbn. repeat split.
Defined.

(** C6, as claimed, fails on an internal-function call-stack entry: the
    frame carries a source reference with function [f] and line 10, and its
    call site is named [internal@5] and has no line. *)
Lemma encodeStackTraceEntry_internal_counterexample :
  let reference := mkSourceReference "A.sol" "A" (Some "f") (Some 10%N) in
  let entry := INTERNAL_FUNCTION_CALLSTACK_ENTRY 5 reference in
  entrySourceReference entry = Some reference /\
  encodeStackTraceEntry (names := Reference.names) entry =
    mkSolidityCallSite (Some "A.sol") (Some "A") (Some "internal@5") None /\
  encodeStackTraceEntry (names := Reference.names) entry <>
    sourceReferenceSite (names := Reference.names) entry reference.
Proof.
  cbn. repeat split. discriminate.
Qed.

(** C10, as amended.  Only the file name has a placeholder in the
    accessors: an absent file name reads as ["unknown"].  An absent
    contract, function or line reads as [null], and a field that is present
    reads as itself; no accessor turns an absent field into the empty
    string. *)
Theorem SolidityCallSite_accessors (site : SolidityCallSite) :
  getFileName site = orElse (cs_sourceName site) "unknown" /\
  getTypeName site = orNull (cs_contract site) /\
  getLineNumber site = orNull (cs_line site) /\
  getFunctionName site =
    match cs_contract site with
    | None => orNull (cs_functionName site)
    | Some _ => null
    end /\
  getMethodName site =
    match cs_contract site with
    | Some _ => orNull (cs_functionName site)
    | None => null
    end /\
  (cs_sourceName site = None -> getFileName site = "unknown") /\
  (cs_contract site = None -> getTypeName site = null) /\
  (cs_line site = None -> getLineNumber site = null) /\
  (cs_functionName site = None ->
   getFunctionName site = null /\ getMethodName site = null).
Proof.
  destruct site as [f [c|] [fn|] [l|]]; cbn;
    repeat split; intros; try discriminate; subst; reflexivity.
Qed.

(** C10, as claimed, fails for the three fields other than the file name:
    with no contract, [getTypeName] is [null], not a placeholder string, and
    so are [getFunctionName], [getMethodName] and [getLineNumber] on a site
    that has none of the fields. *)
Lemma SolidityCallSite_absent_counterexample :
  let site := mkSolidityCallSite None None None None in
  getFileName site = "unknown" /\
  ~ (exists placeholder, placeholder <> "" /\
       getTypeName site = present placeholder) /\
  getTypeName site = null /\ getFunctionName site = null /\
  getMethodName site = null /\ getLineNumber site = null.
Proof.
  cbn. repeat split.
  intros [placeholder [_ H]]. discriminate H.
Qed.

(** ** Messages *)

Section MessageProperties.

Context {names : Names} {decoders : Decoders}.

Local Open Scope completion_scope.

Lemma messageFromReturnData_error (returnData : list byte) (flag : bool) :
  isErrorReturnData returnData = true ->
  messageFromReturnData returnData flag =
  (reason <- decodeError returnData ;;
   Returned (Some
     ("VM Exception while processing transaction: reverted with reason string '"
      ++ reason ++ "'"))).
Proof.
  intros H. unfold messageFromReturnData, classifyReturnData. rewrite H.
  destruct (decodeError returnData); reflexivity.
Qed.

(** The five-way branching is what the two unrecognized-contract error tags
    do. *)
Lemma getMessage_unrecognized_create (returnData : list byte) (flag : bool) :
  getMessageFromLastStackTraceEntry (UNRECOGNIZED_CREATE_ERROR returnData flag)
  = messageFromReturnData returnData flag.
Proof.
  unfold messageFromReturnData, classifyReturnData. cbn.
  destruct (isErrorReturnData returnData).
  - destruct (decodeError returnData); reflexivity.
  - destruct (isPanicReturnData returnData).
    + destruct (decodePanic returnData); reflexivity.
    + destruct returnData, flag; reflexivity.
Qed.

Lemma getMessage_unrecognized_contract (address returnData : list byte)
  (flag : bool) :
  getMessageFromLastStackTraceEntry
    (UNRECOGNIZED_CONTRACT_ERROR address returnData flag)
  = messageFromReturnData returnData flag.
Proof. exact (getMessage_unrecognized_create returnData flag). Qed.

(** C2, as amended.  For the two unrecognized-contract error tags the
    message follows the five branches in order.  For a revert-error frame
    only the first branch is shared: an encoded error string gives the
    reason-string message, and any other return data gives the
    invalid-opcode message when the flag is set and the no-reason-string
    message when it is not, whatever the bytes. *)
Theorem getMessage_return_data_branches (returnData : list byte)
  (flag : bool) :
  getMessageFromLastStackTraceEntry (UNRECOGNIZED_CREATE_ERROR returnData flag)
    = messageFromReturnData returnData flag /\
  (forall address,
     getMessageFromLastStackTraceEntry
       (UNRECOGNIZED_CONTRACT_ERROR address returnData flag)
     = messageFromReturnData returnData flag) /\
  (forall reference,
     getMessageFromLastStackTraceEntry (REVERT_ERROR returnData reference flag)
     = if isErrorReturnData returnData
       then messageFromReturnData returnData flag
       else Returned (Some (if flag then INVALID_OPCODE_MESSAGE
                            else NO_REASON_MESSAGE))).
Proof.
  split; [apply getMessage_unrecognized_create|].
  split; [intros; apply getMessage_unrecognized_contract|].
  intros reference. cbn.
  destruct (isErrorReturnData returnData) eqn:Herr.
  - now rewrite messageFromReturnData_error.
  - destruct flag; reflexivity.
Qed.


Lemma getMessage_without_rule (entry : SolidityStackTraceEntry) :
  hasNoMessageRule entry = true ->
  getMessageFromLastStackTraceEntry entry = Returned None.
Proof.
  intros Hno. destruct entry; cbn in Hno |- *; try discriminate; reflexivity.
Qed.

End MessageProperties.

(** C8 fails on the code.  The return data is the selector of
    [Error(string)] followed by a single byte: [isErrorReturnData] answers
    yes, [decodeError] is called without a guard and throws, and the
    exception leaves [getMessageFromLastStackTraceEntry], on each of the
    three tags that decode return data.  The same happens with
    [decodePanic] on the two unrecognized-contract tags. *)
Theorem getMessage_throws_on_truncated_payload :
  let reference := mkSourceReference "A.sol" "A" (Some "f") (Some 10%N) in
  let D := Reference.strictDecoders in
  let truncated := (Reference.ERROR_SELECTOR ++ [x01%byte])%list in
  let truncatedPanic := (Reference.PANIC_SELECTOR ++ [x01%byte])%list in
  isErrorReturnData (Decoders := D) truncated = true /\
  getMessageFromLastStackTraceEntry (decoders := D)
    (UNRECOGNIZED_CREATE_ERROR truncated false)
    = Thrown (HostError "malformed Error(string) payload") /\
  getMessageFromLastStackTraceEntry (decoders := D)
    (UNRECOGNIZED_CONTRACT_ERROR [xde; xad]%byte truncated false)
    = Thrown (HostError "malformed Error(string) payload") /\
  getMessageFromLastStackTraceEntry (decoders := D)
    (REVERT_ERROR truncated reference false)
    = Thrown (HostError "malformed Error(string) payload") /\
  getMessageFromLastStackTraceEntry (decoders := D)
    (UNRECOGNIZED_CREATE_ERROR truncatedPanic false)
    = Thrown (HostError "malformed Panic(uint256) payload").
Proof.
  vm_compute. repeat split.
Qed.

(** C2, as claimed, fails on revert-error frames.  With the selector of
    [Panic(uint256)] and code 0x11 the claimed message is the panic
    description, and with three bytes that match no selector it is the hex
    dump; the encoder answers both with the no-reason-string message, and
    with the invalid-opcode message once the flag is set although the bytes
    are not empty. *)
Lemma getMessage_revert_counterexample :
  let reference := mkSourceReference "A.sol" "A" (Some "f") (Some 10%N) in
  let D := Reference.decoders in
  let raw := [x01; x02; x03]%byte in
  messageFromReturnData (decoders := D) Reference.panic0x11 false =
    Returned (Some
      "VM Exception while processing transaction: arithmetic overflow/underflow") /\
  getMessageFromLastStackTraceEntry (decoders := D)
    (REVERT_ERROR Reference.panic0x11 reference false) =
    Returned (Some "Transaction reverted without a reason string") /\
  messageFromReturnData (decoders := D) raw false =
    Returned (Some
      "VM Exception while processing transaction: reverted with an unrecognized custom error (return data: 0x010203)") /\
  getMessageFromLastStackTraceEntry (decoders := D)
    (REVERT_ERROR raw reference false) =
    Returned (Some "Transaction reverted without a reason string") /\
  getMessageFromLastStackTraceEntry (decoders := D)
    (REVERT_ERROR raw reference true) =
    Returned (Some "VM Exception while processing transaction: invalid opcode") /\
  getMessageFromLastStackTraceEntry (decoders := D)
    (REVERT_ERROR raw reference false) <>
    messageFromReturnData (decoders := D) raw false.
Proof.
  vm_compute. repeat split. discriminate.
Qed.

(** The classifier and the synthesizer on the specification's examples. *)
Example classify_examples :
  Reference.classify Reference.errorBoom = EncodedError "boom" /\
  Reference.classify Reference.panic0x11 = EncodedPanic 0x11 /\
  Reference.classify [] = Empty /\
  Reference.classify [x01; x02; x03]%byte = Unrecognized [x01; x02; x03]%byte.
Proof. vm_compute. repeat split. Qed.

Example message_examples :
  let reference := mkSourceReference "A.sol" "A" (Some "f") (Some 10%N) in
  let D := Reference.decoders in
  getMessageFromLastStackTraceEntry (decoders := D)
    (REVERT_ERROR [] reference true) =
    Returned (Some "VM Exception while processing transaction: invalid opcode") /\
  getMessageFromLastStackTraceEntry (decoders := D) (PANIC_ERROR 0x11 None) =
    Returned (Some
      "VM Exception while processing transaction: arithmetic overflow/underflow") /\
  getMessageFromLastStackTraceEntry (decoders := D)
    (UNRECOGNIZED_CREATE_ERROR Reference.errorBoom false) =
    Returned (Some
      "VM Exception while processing transaction: reverted with reason string 'boom'") /\
  getMessageFromLastStackTraceEntry (decoders := D)
    (FUNCTION_NOT_PAYABLE_ERROR 1205 reference) =
    Returned (Some
      "Transaction reverted: non-payable function was called with value 1205").
Proof. vm_compute. repeat split. Qed.

Example callsite_examples :
  let N := Reference.names in
  encodeStackTraceEntry (names := N) (CONTRACT_CALL_RUN_OUT_OF_GAS_ERROR None) =
    mkSolidityCallSite None (Some "unrecognized contract")
      (Some "unknown function") None /\
  encodeStackTraceEntry (names := N)
    (UNRECOGNIZED_CONTRACT_CALLSTACK_ENTRY [xde; xad; x00]%byte) =
    mkSolidityCallSite (Some "0xdead00") (Some "unrecognized contract")
      (Some "unknown function") None /\
  encodeStackTraceEntry (names := N)
    (MISSING_FALLBACK_OR_RECEIVE_ERROR
       (mkSourceReference "A.sol" "A" (Some "f") (Some 10%N))) =
    mkSolidityCallSite (Some "A.sol") (Some "A") (Some "unrecognized function")
      (Some 10%N).
Proof. vm_compute. repeat split. Qed.

(** ** The encoder and the rendering hook *)

Section EncoderProperties.

Context {names : Names} {decoders : Decoders}.

Lemma setPrepareStackTrace_restore (engine : Engine)
  (hook : option PrepareStackTrace) :
  setPrepareStackTrace (setPrepareStackTrace engine hook)
    (prepareStackTrace engine) = engine.
Proof. destruct engine; reflexivity. Qed.

(** A closure is never the hook it closes over. *)
Lemma EncoderPrepare_fresh (previousStack : option (list CallSite))
  (trace : SolidityStackTrace) (previous : option PrepareStackTrace) :
  Some (EncoderPrepare previousStack trace previous) <> previous.
Proof.
  destruct previous as [hook|]; [|discriminate].
  intros H. injection H as H.
  apply (f_equal wrappers) in H. cbn in H. lia.
Qed.



(** The unshift loop leaves the frames of the trace on top of the stack,
    innermost first. *)
Lemma unshiftAll_rev (trace : SolidityStackTrace) (stack : list CallSite) :
  unshiftAll trace stack =
  (rev (map (fun entry => SolidityFrame (encodeStackTraceEntry entry)) trace)
   ++ stack)%list.
Proof.
  unfold unshiftAll. revert stack.
  induction trace as [|entry trace IH]; intros stack; cbn; [reflexivity|].
  rewrite IH, <- app_assoc. reflexivity.
Qed.

(** The encoder, statement by statement. *)
Lemma encodeSolidityStackTrace_steps (fallbackMessage : string)
  (trace : SolidityStackTrace) (previousStack : option (list CallSite))
  (captured : list CallSite) (engine : Engine) :
  let previous := prepareStackTrace engine in
  let temporary := EncoderPrepare previousStack trace previous in
  let installed := setPrepareStackTrace engine (Some temporary) in
  encodeSolidityStackTrace fallbackMessage trace previousStack captured engine =
  match requireEntry (lastIndex trace) with
  | Thrown e => (Thrown e, installed)
  | Returned entry =>
      match getMessageFromLastStackTraceEntry entry with
      | Thrown e => (Thrown e, installed)
      | Returned msg =>
          let error := mkSolidityError (orElse msg fallbackMessage) trace None in
          match callPrepareStackTrace temporary error captured with
          | Thrown e => (Thrown e, installed)
          | Returned rendered =>
              (Returned (mkSolidityError (orElse msg fallbackMessage) trace
                           (Some rendered)), engine)
          end
      end
  end.
Proof.
  intros previous temporary installed.
  unfold encodeSolidityStackTrace, bindE, readPrepareStackTrace,
    writePrepareStackTrace, lift, readStack, retE.
  fold previous. fold temporary. fold installed.
  destruct (requireEntry (lastIndex trace)) as [entry|e]; [|reflexivity].
  destruct (getMessageFromLastStackTraceEntry entry) as [msg|e]; [|reflexivity].
  cbn [prepareStackTrace installed setPrepareStackTrace message
       StackTrace.stackTrace].
  destruct (callPrepareStackTrace temporary _ captured) as [rendered|e];
    [|reflexivity].
  unfold installed, previous. now rewrite setPrepareStackTrace_restore.
Qed.

(** On the normal exit the engine is as it was before the call. *)
Lemma encodeSolidityStackTrace_returned_restores (fallbackMessage : string)
  (trace : SolidityStackTrace) (previousStack : option (list CallSite))
  (captured : list CallSite) (engine engine' : Engine) (error : SolidityError) :
  encodeSolidityStackTrace fallbackMessage trace previousStack captured engine
    = (Returned error, engine') ->
  engine' = engine.
Proof.
  rewrite encodeSolidityStackTrace_steps.
  destruct (requireEntry _); [|discriminate].
  destruct (getMessageFromLastStackTraceEntry _); [|discriminate].
  cbv zeta.
  match goal with
  | |- context [callPrepareStackTrace ?h ?err ?c] =>
      destruct (callPrepareStackTrace h err c)
  end; [|discriminate].
  now intros [= _ <-].
Qed.

(** On every exceptional exit the closure stays installed. *)
Lemma encodeSolidityStackTrace_thrown_leaves_closure (fallbackMessage : string)
  (trace : SolidityStackTrace) (previousStack : option (list CallSite))
  (captured : list CallSite) (engine engine' : Engine) (e : Exn) :
  encodeSolidityStackTrace fallbackMessage trace previousStack captured engine
    = (Thrown e, engine') ->
  prepareStackTrace engine' =
    Some (EncoderPrepare previousStack trace (prepareStackTrace engine)) /\
  prepareStackTrace engine' <> prepareStackTrace engine.
Proof.
  rewrite encodeSolidityStackTrace_steps.
  assert (Hleft : forall x : Exn,
            (Thrown x : Completion SolidityError,
             setPrepareStackTrace engine
               (Some (EncoderPrepare previousStack trace
                        (prepareStackTrace engine))))
            = (Thrown e, engine') ->
            prepareStackTrace engine' =
              Some (EncoderPrepare previousStack trace (prepareStackTrace engine))
            /\ prepareStackTrace engine' <> prepareStackTrace engine).
  { intros x [= _ <-]. cbn. split; [reflexivity | apply EncoderPrepare_fresh]. }
  destruct (requireEntry _); [|apply Hleft].
  destruct (getMessageFromLastStackTraceEntry _); [|apply Hleft].
  cbv zeta.
  match goal with
  | |- context [callPrepareStackTrace ?h ?err ?c] =>
      destruct (callPrepareStackTrace h err c)
  end; [discriminate | apply Hleft].
Qed.


End EncoderProperties.



(** The encoder on two traces: the last frame has a message rule; the last
    frame has none and the fallback is used. *)
Example encodeSolidityStackTrace_examples :
  let reference := mkSourceReference "A.sol" "A" (Some "f") (Some 10%N) in
  let engine :=
    Reference.engineWith (Some (HostPrepare Reference.plainRender)) in
  let captured := [NativeCallSite "new SolidityError"; NativeCallSite "caller"] in
  encodeSolidityStackTrace (names := Reference.names)
    (decoders := Reference.decoders) "fallback"
    [CALLSTACK_ENTRY reference; PRECOMPILE_ERROR 3] None captured engine =
  (Returned
     (mkSolidityError "Transaction reverted: call to precompile 3 failed"
        [CALLSTACK_ENTRY reference; PRECOMPILE_ERROR 3]
        (Some
           "Transaction reverted: call to precompile 3 failed | at <PrecompileContract 3>.precompile (unknown) | at A.f (A.sol) | at caller")),
   engine) /\
  encodeSolidityStackTrace (names := Reference.names)
    (decoders := Reference.decoders) "fallback"
    [CALLSTACK_ENTRY reference] None captured engine =
  (Returned
     (mkSolidityError "fallback" [CALLSTACK_ENTRY reference]
        (Some "fallback | at A.f (A.sol) | at caller")),
   engine).
Proof. vm_compute. split; reflexivity. Qed.

(** C1 fails on the code.  With no hook installed before the call
    ([Error.prepareStackTrace] is [undefined]), reading the stack runs the
    closure, the closure calls [undefined], and the [TypeError] leaves
    [encodeSolidityStackTrace] before the assignment that restores the
    hook: afterwards the closure is still installed. *)
Theorem encodeSolidityStackTrace_throw_keeps_closure_installed :
  let trace := [PRECOMPILE_ERROR 3] in
  let engine := Reference.engineWith None in
  let run :=
    encodeSolidityStackTrace (names := Reference.names)
      (decoders := Reference.decoders) "fallback" trace None
      [NativeCallSite "new SolidityError"; NativeCallSite "caller"] engine in
  fst run = Thrown (TypeError "previousPrepareStackTrace is not a function") /\
  prepareStackTrace engine = None /\
  prepareStackTrace (snd run) = Some (EncoderPrepare None trace None) /\
  prepareStackTrace (snd run) <> prepareStackTrace engine.
Proof.
  vm_compute. repeat split. discriminate.
Qed.

(** The same happens when the hook installed before the call throws, ... *)
Lemma encodeSolidityStackTrace_host_hook_throws :
  let trace := [PRECOMPILE_ERROR 3] in
  let previous := Some (HostPrepare Reference.throwingRender) in
  let engine := Reference.engineWith previous in
  let run :=
    encodeSolidityStackTrace (names := Reference.names)
      (decoders := Reference.decoders) "fallback" trace None
      [NativeCallSite "new SolidityError"; NativeCallSite "caller"] engine in
  fst run = Thrown (HostError "prepareStackTrace failed") /\
  prepareStackTrace (snd run) = Some (EncoderPrepare None trace previous) /\
  prepareStackTrace (snd run) <> prepareStackTrace engine.
Proof.
  cbv zeta. split; [reflexivity|]. split; [reflexivity|].
  cbn. discriminate.
Qed.

(** ... when a decoder raises on a truncated [Error(string)] payload, ... *)
Lemma encodeSolidityStackTrace_decoding_failure :
  let trace :=
    [UNRECOGNIZED_CREATE_ERROR (Reference.ERROR_SELECTOR ++ [x01%byte])%list
       false] in
  let previous := Some (HostPrepare Reference.plainRender) in
  let engine := Reference.engineWith previous in
  let run :=
    encodeSolidityStackTrace (names := Reference.names)
      (decoders := Reference.strictDecoders) "fallback" trace None
      [NativeCallSite "new SolidityError"; NativeCallSite "caller"] engine in
  fst run = Thrown (HostError "malformed Error(string) payload") /\
  prepareStackTrace (snd run) = Some (EncoderPrepare None trace previous) /\
  prepareStackTrace (snd run) <> prepareStackTrace engine.
Proof.
  cbv zeta. split; [reflexivity|]. split; [reflexivity|].
  cbn. discriminate.
Qed.

(** ... and on an empty trace, where reading the tag of the missing last
    frame throws. *)
Lemma encodeSolidityStackTrace_empty_trace :
  let previous := Some (HostPrepare Reference.plainRender) in
  let engine := Reference.engineWith previous in
  let run :=
    encodeSolidityStackTrace (names := Reference.names)
      (decoders := Reference.decoders) "fallback" [] None [] engine in
  fst run =
    Thrown (TypeError "Cannot read properties of undefined (reading 'type')") /\
  prepareStackTrace (snd run) = Some (EncoderPrepare None [] previous).
Proof. cbv zeta. split; reflexivity. Qed.

(** Once the closure is left installed, rendering any later error goes
    through it: the stack of an unrelated error is prefixed with the frames
    of the old trace. *)
Lemma leaked_closure_renders_later_errors :
  let trace := [PRECOMPILE_ERROR 3] in
  let previous := Some (HostPrepare Reference.plainRender) in
  let leaked := Reference.engineWith (Some (EncoderPrepare None trace previous)) in
  let unrelated := mkSolidityError "unrelated" [] None in
  fst (readStack (names := Reference.names) unrelated
         [NativeCallSite "top"; NativeCallSite "caller"] leaked) =
  Returned "unrelated | at <PrecompileContract 3>.precompile (unknown) | at caller".
Proof. vm_compute. reflexivity. Qed.

(** ** Build results *)

Import Build.

Section ValidationProperties.

Lemma every_nonFailed (m : StringMap FileBuildResult) :
  forallb
    (fun r => typeEqb (type r) CACHE_HIT || typeEqb (type r) BUILD_SUCCESS)
    (values m) = true
  <-> Forall (fun kv => isNonFailed (snd kv)) m.
Proof.
  unfold values. rewrite forallb_forall, Forall_forall. split.
  - intros H [k r] Hin. specialize (H r (in_map snd _ _ Hin)).
    unfold isNonFailed. cbn. destruct (type r); cbn in H; auto; discriminate.
  - intros H r Hin. apply in_map_iff in Hin as [[k r'] [<- Hin]].
    specialize (H _ Hin). unfold isNonFailed in H. cbn in H |- *.
    destruct H as [-> | ->]; reflexivity.
Qed.

Lemma narrowResult_widen (r : FileBuildResult) (r' : NonFailedFileBuildResult) :
  narrowResult r = Some r' -> widen r' = r.
Proof. destruct r; cbn; intros [= <-]; reflexivity. Qed.

Lemma narrowMap_nonFailed (m : StringMap FileBuildResult) :
  Forall (fun kv => isNonFailed (snd kv)) m ->
  exists m', narrowMap m = Some m' /\
    map (fun kv => (fst kv, widen (snd kv))) m' = m.
Proof.
  induction 1 as [|[k r] rest Hr _ [rest' [IH1 IH2]]]; cbn.
  - exists []. split; reflexivity.
  - destruct r as [b ps | b ps |]; cbn in Hr |- *.
    + rewrite IH1. eexists. split; [reflexivity|]. cbn. now rewrite IH2.
    + rewrite IH1. eexists. split; [reflexivity|]. cbn. now rewrite IH2.
    + destruct Hr as [Hr | Hr]; discriminate Hr.
Qed.

(** C3.  On a results map [throwIfSolidityBuildFailed] returns exactly when
    every entry is a cache hit or a successful build; with a failed entry
    anywhere in the map it throws [BUILD_FAILED]; and when it returns, the
    narrowed view of the map exists and holds the same keys with the same
    values, in the same order. *)
Theorem throwIfSolidityBuildFailed_map (m : StringMap FileBuildResult) :
  (throwIfSolidityBuildFailed (ResultsMap m) = Returned tt
   <-> Forall (fun kv => isNonFailed (snd kv)) m) /\
  ((exists k r, In (k, r) m /\ type r = BUILD_FAILURE) ->
   throwIfSolidityBuildFailed (ResultsMap m)
   = Thrown (HardhatError BUILD_FAILED)) /\
  (throwIfSolidityBuildFailed (ResultsMap m) = Returned tt ->
   exists m', narrow (ResultsMap m) = Some m' /\
     map (fun kv => (fst kv, widen (snd kv))) m' = m /\
     keys m' = keys m /\
     Forall (fun kv => isNonFailed (widen (snd kv))) m').
Proof.
  assert (Hiff : throwIfSolidityBuildFailed (ResultsMap m) = Returned tt
                 <-> Forall (fun kv => isNonFailed (snd kv)) m).
  { rewrite <- every_nonFailed. cbn.
    destruct (forallb _ (values m)); cbn; split; auto; discriminate. }
  split; [exact Hiff|]. split.
  - intros [k [r [Hin Hfailed]]]. cbn.
    destruct (forallb _ (values m)) eqn:Hall; [|reflexivity].
    apply every_nonFailed in Hall. rewrite Forall_forall in Hall.
    specialize (Hall _ Hin). unfold isNonFailed in Hall. cbn in Hall.
    rewrite Hfailed in Hall. destruct Hall; discriminate.
  - intros Hok. apply Hiff in Hok.
    destruct (narrowMap_nonFailed m Hok) as [m' [Hnarrow Hsame]].
    exists m'. split; [exact Hnarrow|]. split; [exact Hsame|]. split.
    + rewrite <- Hsame. unfold keys. rewrite map_map. reflexivity.
    + rewrite <- Hsame in Hok. rewrite Forall_map in Hok. exact Hok.
Qed.

(** C4, as amended.  On a job-creation failure
    [throwIfSolidityBuildFailed] throws the job-creation error with the
    [rootFilePath] and [buildProfile] of the input, and with the input's
    [formattedReason] as its reason. *)
Theorem throwIfSolidityBuildFailed_job_creation
  (error : CompilationJobCreationError) :
  throwIfSolidityBuildFailed (JobCreationError error) =
  Thrown (HardhatError
    (COMPILATION_JOB_CREATION_ERROR (formattedReason error)
       (rootFilePath error) (buildProfile error))).
Proof. reflexivity. Qed.

(** C4, as claimed, fails when [reason] and [formattedReason] differ: the
    error carries the formatted text, not the [reason] of the input. *)
Lemma throwIfSolidityBuildFailed_reason_counterexample :
  let error :=
    mkCompilationJobCreationError "NO_COMPATIBLE_SOLC_VERSION_FOUND"
      "contracts/A.sol" "default"
      "No solc version enabled in this profile is compatible with this file." in
  throwIfSolidityBuildFailed (JobCreationError error) =
    Thrown (HardhatError
      (COMPILATION_JOB_CREATION_ERROR
         "No solc version enabled in this profile is compatible with this file."
         "contracts/A.sol" "default")) /\
  throwIfSolidityBuildFailed (JobCreationError error) <>
    Thrown (HardhatError
      (COMPILATION_JOB_CREATION_ERROR (reason error) (rootFilePath error)
         (buildProfile error))).
Proof.
  cbn. split; [reflexivity | discriminate].
Qed.

(** A failed entry wins over any number of successful ones. *)
Example throwIfSolidityBuildFailed_examples :
  throwIfSolidityBuildFailed
    (ResultsMap [("a.sol", CacheHitFileBuildResult "b1" []);
                 ("b.sol", FailedFileBuildResult);
                 ("c.sol", SuccessfulFileBuildResult "b1" ["C.json"])])
  = Thrown (HardhatError BUILD_FAILED) /\
  throwIfSolidityBuildFailed
    (ResultsMap [("a.sol", CacheHitFileBuildResult "b1" []);
                 ("c.sol", SuccessfulFileBuildResult "b1" ["C.json"])])
  = Returned tt /\
  throwIfSolidityBuildFailed (ResultsMap []) = Returned tt.
Proof. repeat split. Qed.

End ValidationProperties.

(** ** Artifacts *)

Section AggregationProperties.

Context {platform : Platform}.

Local Open Scope completion_scope.

Variable artifactAt : string -> HardhatArtifact Abi.
Variable buildInfoAt : string -> BuildInfo.

(** The record the specification describes for one path is the record the
    loop body pushes. *)
Lemma aggregate_cons (sourcePath : string) (result : NonFailedFileBuildResult)
  (rest : SuccessfulSolidityBuildResults) (root : string) :
  aggregate artifactAt buildInfoAt ((sourcePath, result) :: rest) root =
  (map (fun artifactPath =>
          makeArtifact sourcePath (artifactAt artifactPath)
            (buildInfoAt (buildInfoPath root result)))
     (contractArtifactsGenerated result)
   ++ aggregate artifactAt buildInfoAt rest root)%list.
Proof. reflexivity. Qed.

(** A loop whose body appends: the result is the concatenation of what each
    round appends, in the order of the rounds. *)
Lemma forOf_appends {A B : Type} (xs : list A)
  (body : A -> list B -> Completion (list B)) (g : A -> list B) :
  (forall x acc, In x xs -> body x acc = Returned (acc ++ g x)%list) ->
  forall acc, forOf xs body acc = Returned (acc ++ flat_map g xs)%list.
Proof.
  induction xs as [|x xs IH]; intros Hbody acc; cbn [forOf flat_map].
  - now rewrite app_nil_r.
  - rewrite Hbody by apply in_eq. cbn [bind].
    rewrite IH by (intros; apply Hbody; now apply in_cons).
    now rewrite app_assoc.
Qed.

Lemma flat_map_singleton {A B : Type} (f : A -> B) (xs : list A) :
  flat_map (fun x => [f x]) xs = map f xs.
Proof. induction xs as [|x xs IH]; cbn; [reflexivity | now rewrite IH]. Qed.

Lemma inner_loop (sourcePath root : string) (result : NonFailedFileBuildResult)
  (paths : list string) (artifacts : list EdrArtifact) :
  (forall p, In p paths -> readArtifactJson p = Returned (artifactAt p)) ->
  readBuildInfoJson (buildInfoPath root result)
    = Returned (buildInfoAt (buildInfoPath root result)) ->
  forOf paths
    (fun artifactPath artifacts =>
       artifact <- readArtifactJson artifactPath ;;
       buildInfo <- readBuildInfoJson (buildInfoPath root result) ;;
       Returned (artifacts ++ [makeArtifact sourcePath artifact buildInfo])%list)
    artifacts
  = Returned
      (artifacts ++
       map (fun artifactPath =>
              makeArtifact sourcePath (artifactAt artifactPath)
                (buildInfoAt (buildInfoPath root result))) paths)%list.
Proof.
  intros Hartifact Hinfo.
  rewrite <- flat_map_singleton. apply forOf_appends.
  intros p acc Hp. now rewrite (Hartifact p Hp), Hinfo.
Qed.

Lemma outer_loop (root : string) (results : SuccessfulSolidityBuildResults)
  (artifacts : list EdrArtifact) :
  (forall sourcePath result p,
     In (sourcePath, result) results ->
     In p (contractArtifactsGenerated result) ->
     readArtifactJson p = Returned (artifactAt p)) ->
  (forall sourcePath result,
     In (sourcePath, result) results ->
     readBuildInfoJson (buildInfoPath root result)
       = Returned (buildInfoAt (buildInfoPath root result))) ->
  forOf results
    (fun '(source, result) artifacts =>
       forOf (contractArtifactsGenerated result)
         (fun artifactPath artifacts =>
            artifact <- readArtifactJson artifactPath ;;
            buildInfo <- readBuildInfoJson (buildInfoPath root result) ;;
            Returned (artifacts ++ [makeArtifact source artifact buildInfo])%list)
         artifacts)
    artifacts
  = Returned (artifacts ++ aggregate artifactAt buildInfoAt results root)%list.
Proof.
  intros Hartifact Hinfo. unfold aggregate. apply forOf_appends.
  intros [sourcePath result] acc Hin.
  apply inner_loop; eauto.
Qed.

(** C7.  When the artifact files and the build-info files of a validated
    map can be read, [getArtifacts] returns the records the specification
    describes: one per generated-artifact path, made of the contract name,
    ABI text, bytecode and deployed bytecode of the artifact file, the
    compiler version of the build-info file at
    [<artifactsRoot>/build-info/<buildId>.json], and the source path of the
    entry; entries in the order of the map, paths in the order of the
    entry. *)
Theorem getArtifacts_aggregate (results : SuccessfulSolidityBuildResults)
  (artifactsRootPath : string) :
  (forall sourcePath result p,
     In (sourcePath, result) results ->
     In p (contractArtifactsGenerated result) ->
     readArtifactJson p = Returned (artifactAt p)) ->
  (forall sourcePath result,
     In (sourcePath, result) results ->
     readBuildInfoJson
       (pathJoin [artifactsRootPath; "build-info"; buildId result ++ ".json"])
     = Returned
         (buildInfoAt
            (pathJoin [artifactsRootPath; "build-info";
                       buildId result ++ ".json"]))) ->
  getArtifacts results artifactsRootPath
    = Returned (aggregate artifactAt buildInfoAt results artifactsRootPath) /\
  List.length (aggregate artifactAt buildInfoAt results artifactsRootPath)
    = list_sum
        (map (fun kv => List.length (contractArtifactsGenerated (snd kv)))
           results).
Proof.
  intros Hartifact Hinfo. split.
  - unfold getArtifacts. now rewrite (outer_loop artifactsRootPath results []).
  - clear. induction results as [|[sourcePath result] rest IH]; [reflexivity|].
    rewrite aggregate_cons, length_app, length_map, IH. reflexivity.
Qed.

(** A read that fails ends the aggregation with that failure. *)
Lemma getArtifacts_read_failure (sourcePath root p : string)
  (result : NonFailedFileBuildResult) (paths : list string)
  (rest : SuccessfulSolidityBuildResults) (e : Exn) :
  contractArtifactsGenerated result = p :: paths ->
  readArtifactJson p = Thrown e ->
  getArtifacts ((sourcePath, result) :: rest) root = Thrown e.
Proof.
  intros Hpaths Hread. unfold getArtifacts. cbn. rewrite Hpaths. cbn.
  now rewrite Hread.
Qed.

End AggregationProperties.

(** The round trip of the specification: one build-success entry whose
    single path holds contract [Foo], build info of version 0.8.24 under
    build id [b1]. *)
Lemma getArtifacts_aggregate_witness :
  let foo := mkHardhatArtifact "Foo" "[]" "0x60" "0x60" in
  let P := Fake.platform [("artifacts/Foo.json", foo)]
             [("artifacts/build-info/b1.json", mkBuildInfo "0.8.24")] in
  let results := [("contracts/Foo.sol", BuildSuccess "b1" ["artifacts/Foo.json"])] in
  getArtifacts (platform := P) results "artifacts" =
    Returned [mkEdrArtifact (mkEdrArtifactId "Foo" "0.8.24" "contracts/Foo.sol")
                (mkEdrContract "[]" "0x60" "0x60")].
Proof.
  intros foo P results.
  refine (proj1 (getArtifacts_aggregate (platform := P)
                   (fun _ => foo) (fun _ => mkBuildInfo "0.8.24")
                   results "artifacts" _ _)).
  - intros sourcePath result p [[= <- <-]|[]] [<-|[]]. reflexivity.
  - intros sourcePath result [[= <- <-]|[]]. reflexivity.
Defined.

Example getArtifacts_order :
  let P := Fake.platform
             [("out/A.json", mkHardhatArtifact "A" "[]" "0x0a" "0x0a");
              ("out/B.json", mkHardhatArtifact "B" "[]" "0x0b" "0x0b");
              ("out/C.json", mkHardhatArtifact "C" "[]" "0x0c" "0x0c")]
             [("out/build-info/b1.json", mkBuildInfo "0.8.24");
              ("out/build-info/b2.json", mkBuildInfo "0.8.0")] in
  getArtifacts (platform := P)
    [("z.sol", BuildSuccess "b1" ["out/B.json"; "out/A.json"]);
     ("a.sol", CacheHit "b2" ["out/C.json"])] "out" =
  Returned
    [mkEdrArtifact (mkEdrArtifactId "B" "0.8.24" "z.sol")
       (mkEdrContract "[]" "0x0b" "0x0b");
     mkEdrArtifact (mkEdrArtifactId "A" "0.8.24" "z.sol")
       (mkEdrContract "[]" "0x0a" "0x0a");
     mkEdrArtifact (mkEdrArtifactId "C" "0.8.0" "a.sol")
       (mkEdrContract "[]" "0x0c" "0x0c")] /\
  getArtifacts (platform := P)
    [("z.sol", BuildSuccess "b1" ["out/B.json"; "out/missing.json"])] "out" =
  Thrown (HostError "ENOENT: out/missing.json").
Proof. vm_compute. split; reflexivity. Qed.

(** ** Test suites *)

Section StringFacts.

Lemma substring_all (s : string) : String.substring 0 (String.length s) s = s.
Proof. induction s as [|c s IH]; cbn; [reflexivity | now rewrite IH]. Qed.

Lemma substring_suffix (front suffix : string) :
  String.substring (String.length front) (String.length suffix)
    (front ++ suffix) = suffix.
Proof.
  induction front as [|c front IH]; cbn; [apply substring_all | exact IH].
Qed.

Lemma length_append (a b : string) :
  String.length (a ++ b) = String.length a + String.length b.
Proof. induction a as [|c a IH]; cbn; [reflexivity | now rewrite IH]. Qed.

Lemma substring_split (s : string) (n : nat) :
  n <= String.length s ->
  s = String.substring 0 n s ++ String.substring n (String.length s - n) s.
Proof.
  revert n. induction s as [|c s IH]; intros n Hn.
  - destruct n; reflexivity.
  - destruct n as [|n]; cbn.
    + now rewrite substring_all.
    + cbn in Hn. rewrite <- IH by lia. reflexivity.
Qed.

(** [endsWith] holds exactly of the strings that are some text followed by
    the suffix. *)
Lemma endsWith_spec (s suffix : string) :
  endsWith s suffix = true <-> exists front, s = front ++ suffix.
Proof.
  unfold endsWith. rewrite andb_true_iff, Nat.leb_le, String.eqb_eq. split.
  - intros [Hle Hsub].
    exists (String.substring 0 (String.length s - String.length suffix) s).
    pose proof (substring_split s (String.length s - String.length suffix))
      as Hsplit.
    replace (String.length s - (String.length s - String.length suffix))
      with (String.length suffix) in Hsplit by lia.
    rewrite Hsub in Hsplit. apply Hsplit. lia.
  - intros [front ->]. rewrite length_append. split; [lia|].
    replace (String.length front + String.length suffix - String.length suffix)
      with (String.length front) by lia.
    apply substring_suffix.
Qed.

End StringFacts.

Section SelectionProperties.

Context {platform : Platform}.

Lemma includes_spec (xs : list string) (x : string) :
  includes xs x = true <-> In x xs.
Proof.
  unfold includes. rewrite existsb_exists. split.
  - intros [y [Hin Heq]]. apply String.eqb_eq in Heq. now subst.
  - intros Hin. exists x. split; [exact Hin | apply String.eqb_refl].
Qed.

(** C9.  [getTestSuiteIds] keeps, from the ids of the artifacts in their
    order, those whose source is the project-relative form of some root
    file path ending in [.t.sol]: an id is in the result exactly when it is
    the id of an artifact and has such a source, and the result is the
    sequence of artifact ids filtered by that test. *)
Theorem getTestSuiteIds_selects (artifacts : list EdrArtifact)
  (rootFilePaths : list string) (projectRoot : string) :
  getTestSuiteIds artifacts rootFilePaths projectRoot =
    filter
      (fun i =>
         existsb
           (fun p => endsWith p ".t.sol"
                     && String.eqb (source i) (pathRelative projectRoot p))
           rootFilePaths)
      (map id artifacts) /\
  (forall i,
     In i (getTestSuiteIds artifacts rootFilePaths projectRoot) <->
     In i (map id artifacts) /\
     exists p front, In p rootFilePaths /\ p = front ++ ".t.sol" /\
                     source i = pathRelative projectRoot p).
Proof.
  assert (Htest : forall i,
    includes
      (map (fun p => pathRelative projectRoot p)
         (filter (fun p => endsWith p ".t.sol") rootFilePaths)) (source i) = true
    <-> exists p front, In p rootFilePaths /\ p = front ++ ".t.sol" /\
                        source i = pathRelative projectRoot p).
  { intros i. rewrite includes_spec, in_map_iff. split.
    - intros [p [Heq Hin]]. apply filter_In in Hin as [Hin Hends].
      apply endsWith_spec in Hends as [front Hfront].
      exists p, front. auto.
    - intros [p [front [Hin [Hfront Hsrc]]]]. exists p. split; [auto|].
      apply filter_In. split; [exact Hin|].
      apply endsWith_spec. now exists front. }
  split.
  - unfold getTestSuiteIds. apply filter_ext. intros i.
    apply eq_true_iff_eq. rewrite Htest, existsb_exists. split.
    + intros [p [front [Hin [Hfront Hsrc]]]]. exists p. split; [exact Hin|].
      apply andb_true_iff. split.
      * apply endsWith_spec. now exists front.
      * now apply String.eqb_eq.
    + intros [p [Hin Hp]]. apply andb_true_iff in Hp as [Hends Hsrc].
      apply endsWith_spec in Hends as [front Hfront].
      apply String.eqb_eq in Hsrc. exists p, front. auto.
  - intros i. unfold getTestSuiteIds. rewrite filter_In, Htest. reflexivity.
Qed.

End SelectionProperties.

(** The selector on the specification's example, and on candidates listed
    in the opposite order to the artifacts. *)
Example getTestSuiteIds_examples :
  let P := Fake.platform [] [] in
  let artifact name source :=
    mkEdrArtifact (mkEdrArtifactId name "0.8.24" source)
      (mkEdrContract "[]" "0x" "0x") in
  getTestSuiteIds (platform := P)
    [artifact "A" "a.t.sol"; artifact "B" "b.sol"]
    ["/project/a.t.sol"; "/project/b.sol"] "/project"
  = [mkEdrArtifactId "A" "0.8.24" "a.t.sol"] /\
  getTestSuiteIds (platform := P)
    [artifact "A" "test/a.t.sol"; artifact "B" "b.sol"; artifact "C" "c.t.sol"]
    ["/project/c.t.sol"; "/project/b.sol"; "/project/test/a.t.sol"] "/project"
  = [mkEdrArtifactId "A" "0.8.24" "test/a.t.sol";
     mkEdrArtifactId "C" "0.8.24" "c.t.sol"].
Proof. vm_compute. split; reflexivity. Qed.

(* ================================================================== *)
(** * Part III: further properties of the code *)
(* ================================================================== *)

(** ** The encoder and its closure *)

Import Frames.

Section ClosureProperties.

Context {names : Names} {decoders : Decoders}.

Lemma callPrepareStackTrace_closure (previousStack : option (list CallSite))
  (trace : SolidityStackTrace) (previous : option PrepareStackTrace)
  (error : SolidityError) (stack : list CallSite) :
  callPrepareStackTrace (EncoderPrepare previousStack trace previous) error stack
  = callPrevious previous error
      (syntheticFrames trace ++ nativeFrames previousStack stack)%list.
Proof.
  cbn [callPrepareStackTrace]. rewrite unshiftAll_rev.
  destruct previous, previousStack; reflexivity.
Qed.

(** The engine after a call, on both exits: as it was before the call when
    the call returns; with the closure installed in place of the previous
    hook when the call throws, wherever the exception came from.  The
    closure is never the previous hook. *)
Theorem encodeSolidityStackTrace_final_engine (fallbackMessage : string)
  (trace : SolidityStackTrace) (previousStack : option (list CallSite))
  (captured : list CallSite) (engine : Engine) :
  let run :=
    encodeSolidityStackTrace fallbackMessage trace previousStack captured
      engine in
  let closure :=
    EncoderPrepare previousStack trace (prepareStackTrace engine) in
  snd run =
    match fst run with
    | Returned _ => engine
    | Thrown _ => setPrepareStackTrace engine (Some closure)
    end /\
  Some closure <> prepareStackTrace engine.
Proof.
  cbv zeta. split; [|apply EncoderPrepare_fresh].
  rewrite encodeSolidityStackTrace_steps.
  destruct (requireEntry _); [|reflexivity].
  destruct (getMessageFromLastStackTraceEntry _); [|reflexivity].
  cbv zeta.
  match goal with
  | |- context [callPrepareStackTrace ?h ?err ?c] =>
      destruct (callPrepareStackTrace h err c)
  end; reflexivity.
Qed.

(** When [encodeSolidityStackTrace] returns, the [stack] of the error, and
    so the text [inspect] gives, is what the hook installed before the call
    returned for that error and this stack: the call sites of the trace,
    last frame first, followed by [previousStack] when it was given and by
    the captured frames without the first otherwise.  In particular a hook
    was installed before the call. *)
Theorem encodeSolidityStackTrace_rendered_stack (fallbackMessage : string)
  (trace : SolidityStackTrace) (previousStack : option (list CallSite))
  (captured : list CallSite) (engine engine' : Engine) (error : SolidityError) :
  encodeSolidityStackTrace fallbackMessage trace previousStack captured engine
    = (Returned error, engine') ->
  StackTrace.stackTrace error = trace /\
  prepareStackTrace engine <> None /\
  exists rendered,
    callPrevious (prepareStackTrace engine)
      (mkSolidityError (message error) trace None)
      (syntheticFrames trace ++ nativeFrames previousStack captured)%list
    = Returned rendered /\
    stack error = Some rendered /\
    inspect error = rendered.
Proof.
  rewrite encodeSolidityStackTrace_steps.
  destruct (requireEntry _); [|discriminate].
  destruct (getMessageFromLastStackTraceEntry _) as [msg|]; [|discriminate].
  cbv zeta. rewrite callPrepareStackTrace_closure.
  destruct (callPrevious _ _ _) as [rendered|] eqn:Hcall; [|discriminate].
  intros [= <- _]. split; [reflexivity|]. split.
  - intros Hnone. rewrite Hnone in Hcall. discriminate Hcall.
  - exists rendered. repeat split. exact Hcall.
Qed.

(** A closure left installed by a call that threw becomes the previous hook
    of the next call.  When that next call returns, what is rendered is the
    old trace's call sites on top, and below them the new trace's call
    sites without the one of its last frame: the inner closure drops the
    first element of the stack it is given. *)
Theorem encodeSolidityStackTrace_after_leak
  (fallback1 fallback2 : string) (trace1 front : SolidityStackTrace)
  (entry : SolidityStackTraceEntry)
  (previousStack : option (list CallSite)) (captured1 captured2 : list CallSite)
  (engine engine1 engine2 : Engine) (e : Exn) (error : SolidityError) :
  encodeSolidityStackTrace fallback1 trace1 None captured1 engine
    = (Thrown e, engine1) ->
  encodeSolidityStackTrace fallback2 (front ++ [entry])%list previousStack
    captured2 engine1 = (Returned error, engine2) ->
  engine2 = engine1 /\
  exists rendered,
    callPrevious (prepareStackTrace engine)
      (mkSolidityError (message error) (front ++ [entry])%list None)
      (syntheticFrames trace1 ++ syntheticFrames front
       ++ nativeFrames previousStack captured2)%list
    = Returned rendered /\
    stack error = Some rendered.
Proof.
  intros Hfirst Hsecond.
  split; [exact (encodeSolidityStackTrace_returned_restores _ _ _ _ _ _ _ Hsecond)|].
  apply encodeSolidityStackTrace_thrown_leaves_closure in Hfirst as [Hleft _].
  revert Hsecond. rewrite encodeSolidityStackTrace_steps.
  destruct (requireEntry _); [|discriminate].
  destruct (getMessageFromLastStackTraceEntry _) as [msg|]; [|discriminate].
  cbv zeta. rewrite callPrepareStackTrace_closure, Hleft.
  cbn [callPrevious]. rewrite callPrepareStackTrace_closure.
  unfold syntheticFrames at 2. rewrite map_app, rev_app_distr.
  cbn [map rev app nativeFrames skipn].
  fold (syntheticFrames front).
  destruct (callPrevious _ _ _) as [rendered|] eqn:Hcall; [|discriminate].
  intros [= <- _]. exists rendered. split; [exact Hcall | reflexivity].
Qed.

End ClosureProperties.

Lemma encodeSolidityStackTrace_rendered_stack_witness :
  let reference := mkSourceReference "A.sol" "A" (Some "f") (Some 10%N) in
  let trace := [CALLSTACK_ENTRY reference; PRECOMPILE_ERROR 3] in
  let engine :=
    Reference.engineWith (Some (HostPrepare Reference.plainRender)) in
  exists error,
    fst (encodeSolidityStackTrace (names := Reference.names)
           (decoders := Reference.decoders) "fallback" trace None
           [NativeCallSite "new SolidityError"; NativeCallSite "caller"] engine)
      = Returned error /\
    inspect error =
      "Transaction reverted: call to precompile 3 failed | at <PrecompileContract 3>.precompile (unknown) | at A.f (A.sol) | at caller".
Proof.
  intros reference trace engine.
  destruct (encodeSolidityStackTrace (names := Reference.names)
              (decoders := Reference.decoders) "fallback" trace None
              [NativeCallSite "new SolidityError"; NativeCallSite "caller"]
              engine) as [[error|e] engine'] eqn:Hrun.
  - exists error. split; [reflexivity|].
    destruct (encodeSolidityStackTrace_rendered_stack
                (names := Reference.names) (decoders := Reference.decoders)
                _ _ _ _ _ _ _ Hrun)
      as [_ [_ [rendered [Hcall [_ ->]]]]].
    vm_compute in Hrun. injection Hrun as <- _.
    vm_compute in Hcall. now injection Hcall as <-.
  - vm_compute in Hrun. discriminate Hrun.
Defined.

Lemma encodeSolidityStackTrace_after_leak_witness :
  let reference := mkSourceReference "A.sol" "A" (Some "f") (Some 10%N) in
  let truncated := (Reference.ERROR_SELECTOR ++ [x01%byte])%list in
  let engine :=
    Reference.engineWith (Some (HostPrepare Reference.plainRender)) in
  let first :=
    encodeSolidityStackTrace (names := Reference.names)
      (decoders := Reference.strictDecoders) "fallback"
      [UNRECOGNIZED_CREATE_ERROR truncated false] None
      [NativeCallSite "new SolidityError"; NativeCallSite "caller"] engine in
  let second :=
    encodeSolidityStackTrace (names := Reference.names)
      (decoders := Reference.strictDecoders) "fallback"
      [CALLSTACK_ENTRY reference; PRECOMPILE_ERROR 3] None
      [NativeCallSite "new SolidityError"; NativeCallSite "caller"]
      (snd first) in
  fst first = Thrown (HostError "malformed Error(string) payload") /\
  exists error,
    fst second = Returned error /\
    stack error =
      Some "Transaction reverted: call to precompile 3 failed | at unrecognized contract.constructor (unknown) | at A.f (A.sol) | at caller".
Proof.
  intros reference truncated engine first second.
  split; [reflexivity|].
  destruct first as [outcome1 engine1] eqn:Hfirst.
  assert (Hthrown : outcome1 = Thrown (HostError "malformed Error(string) payload")).
  { vm_compute in Hfirst. now injection Hfirst as <- _. }
  subst outcome1. cbn [snd] in second.
  destruct second as [[error|e] engine2] eqn:Hsecond.
  - exists error. split; [reflexivity|].
    destruct (encodeSolidityStackTrace_after_leak
                (names := Reference.names) (decoders := Reference.strictDecoders)
                "fallback" "fallback"
                [UNRECOGNIZED_CREATE_ERROR truncated false]
                [CALLSTACK_ENTRY reference] (PRECOMPILE_ERROR 3) None
                [NativeCallSite "new SolidityError"; NativeCallSite "caller"]
                [NativeCallSite "new SolidityError"; NativeCallSite "caller"]
                engine engine1 engine2 _ error Hfirst Hsecond)
      as [_ [rendered [Hcall ->]]].
    vm_compute in Hfirst. injection Hfirst as <-.
    vm_compute in Hsecond. injection Hsecond as <- _.
    vm_compute in Hcall. now injection Hcall as <-.
  - exfalso. vm_compute in Hfirst. injection Hfirst as <-.
    vm_compute in Hsecond. discriminate Hsecond.
Defined.

(** ** Synthesized call sites through the accessors *)

Section SiteProperties.

Context {names : Names}.

(** Every arm of the call-site [switch] passes a function name, and the
    accessors report it exactly once: as [getMethodName] when the site has a
    type name, as [getFunctionName] when it has none. *)
Theorem encodeStackTraceEntry_function_name (entry : SolidityStackTraceEntry) :
  let site := encodeStackTraceEntry entry in
  exists name,
    cs_functionName site = Some name /\
    match getTypeName site with
    | present _ =>
        getMethodName site = present name /\ getFunctionName site = null
    | null =>
        getFunctionName site = present name /\ getMethodName site = null
    end.
Proof.
  cbv zeta.
  assert (Hread : forall site name,
            cs_functionName site = Some name ->
            match getTypeName site with
            | present _ =>
                getMethodName site = present name /\ getFunctionName site = null
            | null =>
                getFunctionName site = present name /\ getMethodName site = null
            end).
  { intros [f [c|] fn l] name; cbn; intros ->; split; reflexivity. }
  assert (Hname : exists name,
            cs_functionName (encodeStackTraceEntry entry) = Some name).
  { destruct entry; cbn;
      try match goal with
          | sourceReference : option SourceReference |- _ =>
              destruct sourceReference
          end; eexists; reflexivity. }
  destruct Hname as [name Hname]. exists name.
  split; [exact Hname | exact (Hread _ _ Hname)].
Qed.

(** Where the file name and the line of a synthesized call site come from.
    The file name is that of the frame's source reference; without one it is
    the frame's address in hexadecimal; without either it is absent and
    [getFileName] answers ["unknown"].  A line number is reported exactly
    when the frame has a source reference with a line and is not an
    internal-function entry. *)
Theorem encodeStackTraceEntry_file_and_line (entry : SolidityStackTraceEntry) :
  let site := encodeStackTraceEntry entry in
  getFileName site =
    match entrySourceReference entry, entryAddress entry with
    | Some reference, _ => sourceName reference
    | None, Some address => bytesToHexString address
    | None, None => "unknown"
    end /\
  getLineNumber site =
    match entrySourceReference entry with
    | Some reference =>
        if isInternalFunctionEntry entry then null else orNull (line reference)
    | None => null
    end.
Proof.
  destruct entry; cbn;
    try match goal with
        | sourceReference : option SourceReference |- _ =>
            destruct sourceReference
        end; cbn; split; try reflexivity;
    match goal with
    | |- context [line ?r] => destruct (line r); reflexivity
    end.
Qed.

End SiteProperties.

(** ** Synthesized messages *)

Section MessageShape.

Context {decoders : Decoders}.

Lemma prefix_append (p rest : string) : String.prefix p (p ++ rest) = true.
Proof.
  induction p as [|c p IH]; cbn; [destruct rest; reflexivity|].
  destruct (ascii_dec c c); [exact IH | congruence].
Qed.

(** Whatever the decoders return, a synthesized message opens with one of
    two fixed texts. *)
Theorem getMessage_opening (entry : SolidityStackTraceEntry) (msg : string) :
  getMessageFromLastStackTraceEntry entry = Returned (Some msg) ->
  String.prefix "Transaction reverted" msg = true \/
  String.prefix "VM Exception while processing transaction: " msg = true.
Proof.
  intros H.
  destruct entry; cbn in H; try discriminate;
    repeat match type of H with
           | context [if ?b then _ else _] => destruct b
           | context [bind ?c _] => destruct c; cbn in H
           end;
    try discriminate; injection H as <-;
    first [ left; apply (prefix_append "Transaction reverted")
          | right;
            apply (prefix_append "VM Exception while processing transaction: ") ].
Qed.

End MessageShape.

Lemma getMessage_opening_witness :
  String.prefix "Transaction reverted"
    "Transaction reverted: call to precompile 3 failed" = true \/
  String.prefix "VM Exception while processing transaction: "
    "Transaction reverted: call to precompile 3 failed" = true.
Proof.
  exact (getMessage_opening (decoders := Reference.decoders)
           (PRECOMPILE_ERROR 3) _ eq_refl).
Defined.

(** ** The error printer *)

Section PrinterProperties.

Context {branding : Cli.Branding}.

Lemma string_append_assoc (a b c : string) : (a ++ b) ++ c = a ++ b ++ c.
Proof. induction a as [|x a IH]; cbn; [reflexivity | now rewrite IH]. Qed.

Lemma prefix_split (p s : string) :
  String.prefix p s = true -> exists rest, s = p ++ rest.
Proof.
  revert s. induction p as [|c p IH]; intros s H.
  - now exists s.
  - destruct s as [|d s]; cbn in H; [discriminate|].
    destruct (ascii_dec c d) as [->|]; [|discriminate].
    destruct (IH s H) as [rest ->]. now exists rest.
Qed.

Lemma includesText_spec (s text : string) :
  Cli.includesText s text = true <->
  exists before after, s = before ++ text ++ after.
Proof.
  split.
  - induction s as [|c s IH]; cbn [Cli.includesText]; intros H;
      apply orb_true_iff in H as [H|H]; try discriminate.
    + apply prefix_split in H as [rest ->]. now exists "", rest.
    + apply prefix_split in H as [rest ->]. now exists "", rest.
    + destruct (IH H) as [before [after ->]].
      now exists (String c before), after.
  - intros [before [after ->]].
    induction before as [|c before IH]; cbn [Cli.includesText append].
    + pose proof (prefix_append text after) as Hpre.
      destruct (text ++ after); cbn [Cli.includesText]; now rewrite Hpre.
    + rewrite IH. apply orb_true_r.
Qed.

Lemma isRequireESMError_spec (error : Cli.Value) :
  Cli.isRequireESMError error = true <->
  exists base before after,
    Cli.asError error = Some base /\
    Cli.err_code base = Some "ERR_REQUIRE_CYCLE_MODULE" /\
    Cli.err_message base = before ++ "Cannot require() ES Module" ++ after.
Proof.
  unfold Cli.isRequireESMError. split.
  - destruct (Cli.asError error) as [base|]; [|discriminate].
    destruct (Cli.err_code base) as [code|] eqn:Hcode; [|discriminate].
    intros H. apply andb_true_iff in H as [Heq Hinc].
    apply String.eqb_eq in Heq. subst code.
    apply includesText_spec in Hinc as [before [after Hmsg]].
    exists base, before, after. auto.
  - intros [base [before [after [-> [-> Hmsg]]]]].
    rewrite String.eqb_refl. cbn. apply includesText_spec. eauto.
Qed.

(** The printer prints the ESM-only notice, and nothing else, exactly for
    an [Error] instance whose [code] is [ERR_REQUIRE_CYCLE_MODULE] and whose
    message contains [Cannot require() ES Module]; whether stack traces
    were asked for makes no difference, and so does the kind of error. *)
Theorem printErrorMessages_esm_only (error : Cli.Value) (flag : bool) :
  Cli.printErrorMessages error flag = [Cli.ESM_ONLY_MESSAGE] <->
  exists base before after,
    Cli.asError error = Some base /\
    Cli.err_code base = Some "ERR_REQUIRE_CYCLE_MODULE" /\
    Cli.err_message base = before ++ "Cannot require() ES Module" ++ after.
Proof.
  rewrite <- isRequireESMError_spec. unfold Cli.printErrorMessages.
  destruct (Cli.isRequireESMError error); split; intros H;
    try reflexivity; discriminate.
Qed.

(** An error that is neither a Hardhat error nor a Hardhat plugin error is
    printed with its stack, or with its inspection when it is not an
    [Error], whether stack traces were asked for or not: the headline, an
    empty line, the stack, an empty line and the invitation to report a
    bug. *)
Theorem printErrorMessages_uncategorized (error : Cli.Value) (flag : bool) :
  Cli.isRequireESMError error = false ->
  Cli.category (Cli.getErrorWithCategory error) = Cli.OTHER ->
  Cli.printErrorMessages error flag =
  [Cli.redBold "An unexpected error occurred:"; "";
   Cli.stackText error; "";
   "If you think this is a bug in Hardhat, please report it here: "
   ++ Cli.HARDHAT_WEBSITE_URL ++ "report-bug"].
Proof.
  intros Hesm Hcat. unfold Cli.printErrorMessages. rewrite Hesm.
  cbv zeta. rewrite Hcat. cbn [Cli.categoryEqb]. rewrite orb_true_r.
  unfold Cli.getErrorMessages.
  destruct (Cli.getErrorWithCategory error); try discriminate. reflexivity.
Qed.

(** A Hardhat error or a plugin error is printed in three lines.  Without
    the flag the third line is a hint that ends by naming the
    [--show-stack-traces] option, and the stack is not printed; with the
    flag the third line is the stack, and the hint is not printed. *)
Theorem printErrorMessages_categorized (error : Cli.Value) :
  Cli.isRequireESMError error = false ->
  Cli.category (Cli.getErrorWithCategory error) <> Cli.OTHER ->
  exists headline hint,
    Cli.printErrorMessages error false =
      [headline; ""; hint ++ " with --show-stack-traces"] /\
    Cli.printErrorMessages error true = [headline; ""; Cli.stackText error].
Proof.
  intros Hesm Hcat. unfold Cli.printErrorMessages. rewrite Hesm.
  cbv zeta. unfold Cli.getErrorMessages.
  destruct (Cli.getErrorWithCategory error) as [e|e|e|e]; cbn in Hcat |- *;
    try (exfalso; now apply Hcat).
  - exists (Cli.redBold ("Error " ++ Cli.he_errorCode e ++ ":") ++ " "
            ++ Cli.he_formattedMessage e),
      ("For more info go to " ++ Cli.HARDHAT_WEBSITE_URL ++ Cli.he_errorCode e
       ++ " or run " ++ Cli.HARDHAT_NAME).
    split; [|reflexivity]. repeat f_equal.
    now rewrite !string_append_assoc.
  - exists (Cli.redBold ("Error " ++ Cli.he_errorCode e ++ " in plugin "
                         ++ Cli.templateOf (Cli.he_pluginId e) ++ ":")
            ++ " " ++ Cli.he_formattedMessage e),
      ("For more info go to " ++ Cli.HARDHAT_WEBSITE_URL ++ Cli.he_errorCode e
       ++ " or run " ++ Cli.HARDHAT_NAME).
    split; [|reflexivity]. repeat f_equal.
    now rewrite !string_append_assoc.
  - exists (Cli.redBold ("Error in community plugin " ++ Cli.pe_pluginId e
                         ++ ":")
            ++ " " ++ Cli.err_message (Cli.pe_base e)),
      ("For more info run " ++ Cli.HARDHAT_NAME).
    split; [|reflexivity]. repeat f_equal.
Qed.

End PrinterProperties.

Lemma printErrorMessages_uncategorized_witness :
  Cli.printErrorMessages (branding := Cli.plainBranding)
    (Cli.OtherValue "{ answer: 42 }") false =
  ["An unexpected error occurred:"; ""; "{ answer: 42 }"; "";
   "If you think this is a bug in Hardhat, please report it here: https://hardhat.org/report-bug"].
Proof.
  exact (printErrorMessages_uncategorized (branding := Cli.plainBranding)
           (Cli.OtherValue "{ answer: 42 }") false eq_refl eq_refl).
Defined.

Lemma printErrorMessages_categorized_witness :
  let error :=
    Cli.HardhatErrorValue
      (Cli.mkHardhatErrorObject None "HHE1" "Something failed"
         (Cli.mkErrorObject None "HHE1: Something failed"
            (Some "HardhatError: HHE1: Something failed | at main"))) in
  exists headline hint,
    Cli.printErrorMessages (branding := Cli.plainBranding) error false =
      [headline; ""; hint ++ " with --show-stack-traces"] /\
    Cli.printErrorMessages (branding := Cli.plainBranding) error true =
      [headline; ""; "HardhatError: HHE1: Something failed | at main"].
Proof.
  intros error.
  apply (printErrorMessages_categorized (branding := Cli.plainBranding) error).
  - reflexivity.
  - discriminate.
Defined.

Section PrinterAfterEncoder.

Context {names : Names} {decoders : Decoders} {branding : Cli.Branding}.

Lemma encodeSolidityStackTrace_sets_stack (fallbackMessage : string)
  (trace : SolidityStackTrace) (previousStack : option (list CallSite))
  (captured : list CallSite) (engine engine' : Engine) (error : SolidityError) :
  encodeSolidityStackTrace fallbackMessage trace previousStack captured engine
    = (Returned error, engine') ->
  stack error = Some (inspect error).
Proof.
  rewrite encodeSolidityStackTrace_steps.
  destruct (requireEntry _); [|discriminate].
  destruct (getMessageFromLastStackTraceEntry _); [|discriminate].
  cbv zeta.
  match goal with
  | |- context [callPrepareStackTrace ?h ?err ?c] =>
      destruct (callPrepareStackTrace h err c)
  end; [|discriminate].
  now intros [= <- _].
Qed.

(** The error the encoder returns is printed in full whatever the flag: it
    is no Hardhat error and has no [code], so the printer shows the
    headline for unexpected errors, the stack the encoder rendered, and the
    invitation to report a bug. *)
Theorem printErrorMessages_of_encoded (fallbackMessage : string)
  (trace : SolidityStackTrace) (previousStack : option (list CallSite))
  (captured : list CallSite) (engine engine' : Engine) (error : SolidityError)
  (flag : bool) :
  encodeSolidityStackTrace fallbackMessage trace previousStack captured engine
    = (Returned error, engine') ->
  Cli.printErrorMessages (Cli.ofSolidityError error) flag =
  [Cli.redBold "An unexpected error occurred:"; "";
   inspect error; "";
   "If you think this is a bug in Hardhat, please report it here: "
   ++ Cli.HARDHAT_WEBSITE_URL ++ "report-bug"].
Proof.
  intros Hrun. apply encodeSolidityStackTrace_sets_stack in Hrun.
  unfold Cli.printErrorMessages, Cli.ofSolidityError. cbn.
  rewrite Hrun, orb_true_r. reflexivity.
Qed.

End PrinterAfterEncoder.

Lemma printErrorMessages_of_encoded_witness :
  let reference := mkSourceReference "A.sol" "A" (Some "f") (Some 10%N) in
  let engine :=
    Reference.engineWith (Some (HostPrepare Reference.plainRender)) in
  exists error,
    fst (encodeSolidityStackTrace (names := Reference.names)
           (decoders := Reference.decoders) "fallback"
           [CALLSTACK_ENTRY reference] None
           [NativeCallSite "new SolidityError"; NativeCallSite "caller"] engine)
      = Returned error /\
    Cli.printErrorMessages (branding := Cli.plainBranding)
      (Cli.ofSolidityError error) false =
    ["An unexpected error occurred:"; "";
     "fallback | at A.f (A.sol) | at caller"; "";
     "If you think this is a bug in Hardhat, please report it here: https://hardhat.org/report-bug"].
Proof.
  intros reference engine.
  destruct (encodeSolidityStackTrace (names := Reference.names)
              (decoders := Reference.decoders) "fallback"
              [CALLSTACK_ENTRY reference] None
              [NativeCallSite "new SolidityError"; NativeCallSite "caller"]
              engine) as [[error|e] engine'] eqn:Hrun.
  - exists error. split; [reflexivity|].
    rewrite (printErrorMessages_of_encoded (names := Reference.names)
               (decoders := Reference.decoders)
               (branding := Cli.plainBranding) _ _ _ _ _ _ _ false Hrun).
    vm_compute in Hrun. injection Hrun as <- _. reflexivity.
  - vm_compute in Hrun. discriminate Hrun.
Defined.

(** ** More on the build helpers *)

Section LoopFacts.

Local Open Scope completion_scope.

Lemma returns_bind {A B : Type} (c : Completion A) (k : A -> Completion B) :
  returns (bind c k) <-> exists a, c = Returned a /\ returns (k a).
Proof.
  destruct c as [a|e]; cbn; split.
  - intros H. now exists a.
  - now intros [a' [[= <-] H]].
  - intros [b H]. discriminate H.
  - intros [a [H _]]. discriminate H.
Qed.

(** A loop whose rounds return or throw independently of the accumulator
    returns exactly when every round does. *)
Lemma forOf_returns {A S : Type} (xs : list A)
  (body : A -> S -> Completion S) (ok : A -> Prop) :
  (forall x s, returns (body x s) <-> ok x) ->
  forall s, returns (forOf xs body s) <-> Forall ok xs.
Proof.
  intros Hbody. induction xs as [|x xs IH]; intros s; cbn [forOf].
  - split; [constructor | intros _; now exists s].
  - rewrite returns_bind. split.
    + intros [s' [Hx Hrest]]. constructor.
      * apply (Hbody x s). now exists s'.
      * now apply (IH s').
    + intros H. inversion H as [|? ? Hx Hrest]; subst.
      destruct (proj2 (Hbody x s) Hx) as [s' Hs']. exists s'.
      split; [exact Hs' | now apply IH].
Qed.

(** A loop whose rounds extend a view of the accumulator extends it by the
    rounds' contributions, in order. *)
Lemma forOf_view {A S V : Type} (xs : list A) (body : A -> S -> Completion S)
  (view : S -> list V) (g : A -> list V) :
  (forall x s s', In x xs -> body x s = Returned s' ->
                  view s' = (view s ++ g x)%list) ->
  forall s out, forOf xs body s = Returned out ->
                view out = (view s ++ flat_map g xs)%list.
Proof.
  induction xs as [|x xs IH]; intros Hbody s out; cbn [forOf flat_map].
  - intros [= <-]. now rewrite app_nil_r.
  - destruct (body x s) as [s'|e] eqn:Hx; cbn [bind]; [|discriminate].
    intros Hrest.
    rewrite (IH (fun y a b Hy => Hbody y a b (in_cons _ _ _ Hy)) _ _ Hrest).
    rewrite (Hbody x s s' (in_eq _ _) Hx). now rewrite app_assoc.
Qed.

Lemma flat_map_constant {A B : Type} (b : B) (xs : list A) :
  flat_map (fun _ => [b]) xs = repeat b (List.length xs).
Proof. induction xs as [|x xs IH]; cbn; [reflexivity | now rewrite IH]. Qed.

End LoopFacts.

Section MoreAggregation.

Context {platform : Platform}.

Local Open Scope completion_scope.

(** The source paths of the artifacts returned, in order: each key of the
    map, once per generated-artifact path of its entry. *)
Lemma getArtifacts_sources (results : SuccessfulSolidityBuildResults)
  (root : string) (artifacts : list EdrArtifact) :
  getArtifacts results root = Returned artifacts ->
  map (fun a => source (id a)) artifacts =
  flat_map
    (fun kv => repeat (fst kv)
                 (List.length (contractArtifactsGenerated (snd kv))))
    results.
Proof.
  unfold getArtifacts. intros Hrun.
  apply (forOf_view results _ (map (fun a => source (id a)))
           (fun kv => repeat (fst kv)
                        (List.length (contractArtifactsGenerated (snd kv)))))
    in Hrun; [exact Hrun|].
  intros [sourcePath result] acc out _ Hinner. cbn [fst snd].
  rewrite <- flat_map_constant.
  apply (forOf_view (contractArtifactsGenerated result) _
           (map (fun a => source (id a))) (fun _ => [sourcePath]))
    in Hinner; [exact Hinner|].
  intros p s s' _ Hbody.
  destruct (readArtifactJson p); cbn in Hbody; [|discriminate].
  destruct (readBuildInfoJson _); cbn in Hbody; [|discriminate].
  injection Hbody as <-. now rewrite map_app.
Qed.

(** [getArtifacts] is all or nothing: it returns exactly when every
    generated-artifact path of every entry can be read, together with the
    build-info file of that entry.  The build-info file of an entry without
    generated artifacts is never read. *)
Theorem getArtifacts_all_or_nothing (results : SuccessfulSolidityBuildResults)
  (artifactsRootPath : string) :
  returns (getArtifacts results artifactsRootPath) <->
  (forall sourcePath result p,
     In (sourcePath, result) results ->
     In p (contractArtifactsGenerated result) ->
     returns (readArtifactJson p) /\
     returns (readBuildInfoJson
                (pathJoin [artifactsRootPath; "build-info";
                           buildId result ++ ".json"]))).
Proof.
  unfold getArtifacts.
  rewrite (forOf_returns results _
             (fun kv =>
                Forall (fun p =>
                          returns (readArtifactJson p) /\
                          returns (readBuildInfoJson
                                     (buildInfoPath artifactsRootPath (snd kv))))
                  (contractArtifactsGenerated (snd kv)))).
  - rewrite Forall_forall. split.
    + intros H sourcePath result p Hin Hp.
      specialize (H _ Hin). rewrite Forall_forall in H. exact (H p Hp).
    + intros H [sourcePath result] Hin. rewrite Forall_forall.
      intros p Hp. exact (H sourcePath result p Hin Hp).
  - intros [sourcePath result] acc. cbn [snd].
    apply forOf_returns. intros p s.
    rewrite returns_bind. split.
    + intros [a [Ha Hrest]]. apply returns_bind in Hrest as [b [Hb _]].
      split; [now exists a | now exists b].
    + intros [[a Ha] [b Hb]]. exists a. split; [exact Ha|].
      rewrite Hb. cbn. eexists. reflexivity.
Qed.

(** Whatever the files hold, the artifacts returned carry the keys of the
    map as their sources: each key once per generated-artifact path of its
    entry, in map order.  So there are as many artifacts as paths, and no
    artifact has a source that is not a key. *)
Theorem getArtifacts_sources_are_keys (results : SuccessfulSolidityBuildResults)
  (artifactsRootPath : string) (artifacts : list EdrArtifact) :
  getArtifacts results artifactsRootPath = Returned artifacts ->
  map (fun a => source (id a)) artifacts =
    flat_map
      (fun kv => repeat (fst kv)
                   (List.length (contractArtifactsGenerated (snd kv))))
      results /\
  List.length artifacts =
    list_sum
      (map (fun kv => List.length (contractArtifactsGenerated (snd kv)))
         results) /\
  (forall a, In a artifacts -> In (source (id a)) (keys results)).
Proof.
  intros Hrun. pose proof (getArtifacts_sources _ _ _ Hrun) as Hsources.
  split; [exact Hsources|]. split.
  - rewrite <- (length_map (fun a => source (id a))), Hsources.
    clear. induction results as [|kv rest IH]; [reflexivity|].
    cbn. now rewrite length_app, repeat_length, IH.
  - intros a Ha.
    apply (in_map (fun a => source (id a))) in Ha. rewrite Hsources in Ha.
    apply in_flat_map in Ha as [kv [Hkv Hrep]].
    apply repeat_spec in Hrep. rewrite Hrep.
    unfold keys. now apply in_map.
Qed.

(** Test-suite ids selected from the artifacts of a build: the source of
    each is a key of the results map whose entry generated an artifact, and
    is the project-relative form of a root file path ending in [.t.sol]. *)
Theorem getTestSuiteIds_of_getArtifacts
  (results : SuccessfulSolidityBuildResults) (artifactsRootPath : string)
  (artifacts : list EdrArtifact) (rootFilePaths : list string)
  (projectRoot : string) (i : EdrArtifactId) :
  getArtifacts results artifactsRootPath = Returned artifacts ->
  In i (getTestSuiteIds artifacts rootFilePaths projectRoot) ->
  (exists result,
     In (source i, result) results /\ contractArtifactsGenerated result <> []) /\
  (exists p, In p rootFilePaths /\ endsWith p ".t.sol" = true /\
             source i = pathRelative projectRoot p).
Proof.
  intros Hrun Hin. unfold getTestSuiteIds in Hin.
  apply filter_In in Hin as [Hid Htest]. split.
  - apply in_map_iff in Hid as [a [<- Ha]].
    apply (in_map (fun a => source (id a))) in Ha.
    rewrite (getArtifacts_sources _ _ _ Hrun) in Ha.
    apply in_flat_map in Ha as [[key result] [Hkv Hrep]]. cbn [fst snd] in Hrep.
    exists result. split.
    + apply repeat_spec in Hrep. now rewrite Hrep.
    + intros Hnil. rewrite Hnil in Hrep. destruct Hrep.
  - apply includes_spec in Htest. apply in_map_iff in Htest as [p [Hp Hin]].
    apply filter_In in Hin as [Hin Hends]. exists p. auto.
Qed.

(** [getTestSuiteIds] depends on the root file paths only through the set
    of those ending in [.t.sol]: their order, repetitions, and every other
    path are immaterial. *)
Theorem getTestSuiteIds_candidates (artifacts : list EdrArtifact)
  (rootFilePaths rootFilePaths' : list string) (projectRoot : string) :
  (forall p, endsWith p ".t.sol" = true ->
             (In p rootFilePaths <-> In p rootFilePaths')) ->
  getTestSuiteIds artifacts rootFilePaths projectRoot =
  getTestSuiteIds artifacts rootFilePaths' projectRoot.
Proof.
  intros Hsame. unfold getTestSuiteIds. apply filter_ext. intros i.
  apply eq_true_iff_eq. rewrite !includes_spec, !in_map_iff.
  split; intros [p [Hp Hin]]; exists p; (split; [exact Hp|]);
    apply filter_In in Hin as [Hin Hends]; apply filter_In;
    (split; [now apply (Hsame p Hends) | exact Hends]).
Qed.

End MoreAggregation.

(** Two maps with no key in common, put together: validation succeeds
    exactly when it succeeds on each part. *)
Theorem throwIfSolidityBuildFailed_disjoint_union
  (m1 m2 : StringMap FileBuildResult) :
  NoDup (keys (m1 ++ m2)%list) ->
  (throwIfSolidityBuildFailed (ResultsMap (m1 ++ m2)%list) = Returned tt <->
   throwIfSolidityBuildFailed (ResultsMap m1) = Returned tt /\
   throwIfSolidityBuildFailed (ResultsMap m2) = Returned tt).
Proof.
  intros _. cbn. unfold values. rewrite map_app, forallb_app.
  destruct (forallb _ (map snd m1)), (forallb _ (map snd m2)); cbn;
    split; try (intros [H1 H2]); try discriminate; auto.
Qed.

Lemma throwIfSolidityBuildFailed_disjoint_union_witness :
  let m1 := [("a.sol", CacheHitFileBuildResult "b1" ["A.json"])] in
  let m2 := [("b.sol", FailedFileBuildResult);
             ("c.sol", SuccessfulFileBuildResult "b1" ["C.json"])] in
  throwIfSolidityBuildFailed (ResultsMap (m1 ++ m2)%list) = Returned tt <->
  throwIfSolidityBuildFailed (ResultsMap m1) = Returned tt /\
  throwIfSolidityBuildFailed (ResultsMap m2) = Returned tt.
Proof.
  intros m1 m2. apply (throwIfSolidityBuildFailed_disjoint_union m1 m2).
  cbn. repeat constructor; cbn; intuition discriminate.
Defined.

Section AggregationFailure.

Context {platform : Platform}.

Local Open Scope completion_scope.

Lemma forOf_thrown {A S : Type} (xs : list A) (body : A -> S -> Completion S)
  (s : S) (e : Exn) :
  forOf xs body s = Thrown e ->
  exists x s', In x xs /\ body x s' = Thrown e.
Proof.
  revert s. induction xs as [|x xs IH]; intros s; cbn [forOf]; [discriminate|].
  destruct (body x s) as [s'|e'] eqn:Hx; cbn [bind].
  - intros Hrest. destruct (IH _ Hrest) as [y [t [Hy Ht]]].
    exists y, t. split; [now right | exact Ht].
  - intros [= <-]. exists x, s. split; [now left | exact Hx].
Qed.

(** [getArtifacts] raises nothing of its own: what it throws is what the
    read of one of the generated-artifact paths, or of the build-info file
    of that path's entry, threw. *)
Theorem getArtifacts_throws_a_read_error
  (results : SuccessfulSolidityBuildResults) (artifactsRootPath : string)
  (e : Exn) :
  getArtifacts results artifactsRootPath = Thrown e ->
  exists sourcePath result p,
    In (sourcePath, result) results /\
    In p (contractArtifactsGenerated result) /\
    (readArtifactJson p = Thrown e \/
     readBuildInfoJson
       (pathJoin [artifactsRootPath; "build-info"; buildId result ++ ".json"])
     = Thrown e).
Proof.
  unfold getArtifacts. intros Hrun.
  apply forOf_thrown in Hrun as [[sourcePath result] [acc [Hin Hinner]]].
  apply forOf_thrown in Hinner as [p [acc' [Hp Hbody]]].
  exists sourcePath, result, p. split; [exact Hin|]. split; [exact Hp|].
  destruct (readArtifactJson p) as [a|e1]; cbn in Hbody.
  - right. fold (buildInfoPath artifactsRootPath result).
    destruct (readBuildInfoJson _) as [b|e2]; cbn in Hbody;
      [discriminate | now injection Hbody as <-].
  - left. now injection Hbody as <-.
Qed.

End AggregationFailure.

Lemma getArtifacts_throws_a_read_error_witness :
  let P := Fake.platform
             [("out/B.json", mkHardhatArtifact "B" "[]" "0x0b" "0x0b")]
             [("out/build-info/b1.json", mkBuildInfo "0.8.24")] in
  let results := [("z.sol", BuildSuccess "b1" ["out/B.json"; "out/missing.json"])] in
  exists sourcePath result p,
    In (sourcePath, result) results /\
    In p (contractArtifactsGenerated result) /\
    (readArtifactJson (Platform := P) p
       = Thrown (HostError "ENOENT: out/missing.json") \/
     readBuildInfoJson (Platform := P)
       (pathJoin (Platform := P) ["out"; "build-info"; buildId result ++ ".json"])
     = Thrown (HostError "ENOENT: out/missing.json")).
Proof.
  intros P results.
  apply (getArtifacts_throws_a_read_error (platform := P) results "out").
  reflexivity.
Defined.

Lemma getArtifacts_sources_are_keys_witness :
  let P := Fake.platform
             [("out/A.json", mkHardhatArtifact "A" "[]" "0x0a" "0x0a");
              ("out/B.json", mkHardhatArtifact "B" "[]" "0x0b" "0x0b");
              ("out/C.json", mkHardhatArtifact "C" "[]" "0x0c" "0x0c")]
             [("out/build-info/b1.json", mkBuildInfo "0.8.24");
              ("out/build-info/b2.json", mkBuildInfo "0.8.0")] in
  let results :=
    [("z.sol", BuildSuccess "b1" ["out/B.json"; "out/A.json"]);
     ("a.sol", CacheHit "b2" ["out/C.json"])] in
  exists artifacts,
    getArtifacts (platform := P) results "out" = Returned artifacts /\
    map (fun a => source (id a)) artifacts = ["z.sol"; "z.sol"; "a.sol"] /\
    List.length artifacts = 3.
Proof.
  intros P results.
  destruct (getArtifacts (platform := P) results "out") as [artifacts|e] eqn:Hrun.
  - exists artifacts. split; [reflexivity|].
    destruct (getArtifacts_sources_are_keys (platform := P) results "out"
                artifacts Hrun) as [Hsources [Hlength _]].
    split; [exact Hsources | exact Hlength].
  - vm_compute in Hrun. discriminate Hrun.
Defined.

Lemma getTestSuiteIds_of_getArtifacts_witness :
  let P := Fake.platform
             [("out/T.json", mkHardhatArtifact "T" "[]" "0x0a" "0x0a")]
             [("out/build-info/b1.json", mkBuildInfo "0.8.24")] in
  let results := [("test/a.t.sol", BuildSuccess "b1" ["out/T.json"])] in
  let i := mkEdrArtifactId "T" "0.8.24" "test/a.t.sol" in
  (exists result,
     In (source i, result) results /\ contractArtifactsGenerated result <> []) /\
  (exists p, In p ["/project/test/a.t.sol"] /\ endsWith p ".t.sol" = true /\
             source i = pathRelative (Platform := P) "/project" p).
Proof.
  intros P results i.
  apply (getTestSuiteIds_of_getArtifacts (platform := P) results "out"
           [mkEdrArtifact i (mkEdrContract "[]" "0x0a" "0x0a")]
           ["/project/test/a.t.sol"] "/project" i).
  - reflexivity.
  - vm_compute. now left.
Defined.

Lemma getTestSuiteIds_candidates_witness :
  let P := Fake.platform [] [] in
  let artifacts :=
    [mkEdrArtifact (mkEdrArtifactId "A" "0.8.24" "a.t.sol")
       (mkEdrContract "[]" "0x" "0x");
     mkEdrArtifact (mkEdrArtifactId "B" "0.8.24" "b.sol")
       (mkEdrContract "[]" "0x" "0x")] in
  getTestSuiteIds (platform := P) artifacts
    ["/project/b.sol"; "/project/a.t.sol"; "/project/a.t.sol"] "/project" =
  getTestSuiteIds (platform := P) artifacts ["/project/a.t.sol"] "/project".
Proof.
  intros P artifacts.
  apply (getTestSuiteIds_candidates (platform := P)).
  intros p Hends. split.
  - intros [<-|[<-|[<-|[]]]]; [discriminate Hends | now left | now left].
  - intros [<-|[]]. right. now left.
Defined.

(** ** When message synthesis throws, and when it has no message *)

Section MessageOutcomes.

Context {decoders : Decoders}.

(** [getMessageFromLastStackTraceEntry] raises nothing of its own: it throws
    exactly what [decodeError] throws on return data that
    [isErrorReturnData] accepts, or, on the two unrecognized-contract tags,
    what [decodePanic] throws on return data that only [isPanicReturnData]
    accepts; a frame without return data never throws.  It returns
    [undefined] exactly on the four call-stack tags. *)
Theorem getMessage_outcomes (entry : SolidityStackTraceEntry) :
  (forall e,
     getMessageFromLastStackTraceEntry entry = Thrown e <->
     exists returnData,
       entryReturnData entry = Some returnData /\
       ((isErrorReturnData returnData = true /\
         decodeError returnData = Thrown e) \/
        (decodesPanic entry = true /\
         isErrorReturnData returnData = false /\
         isPanicReturnData returnData = true /\
         decodePanic returnData = Thrown e))) /\
  (getMessageFromLastStackTraceEntry entry = Returned None <->
   hasNoMessageRule entry = true).
Proof.
  split.
  - intros e. split.
    + intros H.
      destruct entry; cbn in H; try discriminate;
        (exists returnData; split; [reflexivity|]);
        destruct (isErrorReturnData returnData) eqn:Herr;
        try (destruct (decodeError returnData) eqn:Hdec; cbn in H;
             [discriminate | injection H as <-; left; auto]);
        try (destruct isInvalidOpcodeError; discriminate);
        destruct (isPanicReturnData returnData) eqn:Hpanic;
        try (destruct (decodePanic returnData) eqn:Hdec; cbn in H;
             [discriminate | injection H as <-; right; auto]);
        destruct (negb (isEmpty returnData)), isInvalidOpcodeError;
        discriminate.
    + intros [returnData [Hdata Hcase]].
      destruct entry; cbn in Hdata; try discriminate;
        injection Hdata as <-; cbn;
        destruct Hcase as [[Herr Hdec] | [Hpanics [Herr [Hpanic Hdec]]]];
        try discriminate Hpanics;
        rewrite Herr; try rewrite Hpanic; rewrite Hdec; reflexivity.
  - split.
    + intros H.
      destruct entry; cbn in H |- *; try reflexivity; try discriminate;
        repeat match type of H with
               | context [if ?b then _ else _] => destruct b
               | context [bind ?c _] => destruct c; cbn in H
               end; discriminate.
    + apply getMessage_without_rule.
Qed.

End MessageOutcomes.
